(** * android_world benchmark harness: inference gateways, observation
      recovery and the episode driver.

    A shallow embedding of
      - [src/android_world/agents/infer.py]         (module [infer]),
      - [src/android_world/env/ui_tree_wrapper.py]  (module [ui_tree_wrapper]),
      - [src/benchmark_run.py]                      (module [benchmark_run]),
    followed by the properties proved about them.

    Conventions.  Python [int]s are [Z]; wall-clock readings and sleep
    durations that are [float]s are exact rationals [Q]; a [dict] is a
    [gmap]; a Python exception is a value of [exn] carried by [Raise];
    collaborators that live outside the repository (the HTTP backend, the
    device session, the agent) are oracles indexed by the number of calls
    made so far, so that a stateful collaborator is a function of its call
    count. *)

From Stdlib Require Import ZArith QArith Lia Lqa List String Ascii.
From stdpp Require Import base option list gmap strings pretty.
Import ListNotations.

Local Open Scope string_scope.
Local Open Scope list_scope.
Local Open Scope Z_scope.

(** ** Python exceptions and fallible results *)

(** The exception classes the three files raise or discriminate on.
    [NotImplementedError] stands for the subclasses of [RuntimeError]:
    an [except RuntimeError] clause catches them too. *)
Inductive exn_class :=
| KeyError | IndexError | ValueError | TypeError | AttributeError | NameError
| RuntimeError | NotImplementedError
| OtherException.

Record exn := Exn { exn_cls : exn_class; exn_msg : string }.

(** [isinstance(e, RuntimeError)] *)
Definition is_RuntimeError (e : exn) : bool :=
  match exn_cls e with
  | RuntimeError | NotImplementedError => true
  | _ => false
  end.

(** [isinstance(e, KeyError)] *)
Definition is_KeyError (e : exn) : bool :=
  match exn_cls e with
  | KeyError => true
  | _ => false
  end.

Inductive result (A : Type) :=
| Return (a : A)
| Raise (e : exn).
Arguments Return {A} a.
Arguments Raise {A} e.

(** A computation over a mutable state [S] that may raise; the state
    reached when the exception is raised is kept, as Python keeps the
    side effects performed before a [raise]. *)
Definition M (S A : Type) : Type := S -> result A * S.

Definition ret {S A} (a : A) : M S A := fun s => (Return a, s).
Definition raise {S A} (e : exn) : M S A := fun s => (Raise e, s).
Definition bind {S A B} (m : M S A) (k : A -> M S B) : M S B :=
  fun s => match m s with
           | (Return a, s') => k a s'
           | (Raise e, s') => (Raise e, s')
           end.
Definition get {S} : M S S := fun s => (Return s, s).
Definition modify {S} (f : S -> S) : M S unit := fun s => (Return tt, f s).
(** [try: m except Exception as e: h e] *)
Definition try_except {S A} (m : M S A) (h : exn -> M S A) : M S A :=
  fun s => match m s with
           | (Return a, s') => (Return a, s')
           | (Raise e, s') => h e s'
           end.
(** A computation without side effects, inside one with. *)
Definition lift {S A} (r : result A) : M S A := fun s => (r, s).

(** Computations that only return or raise: [x ← m; k] runs [k] on the
    value [m] returns and raises what [m] raises. *)
Global Instance result_ret : MRet result := @Return.
Global Instance result_bind : MBind result :=
  fun A B (k : A -> result B) (m : result A) =>
    match m with
    | Return a => k a
    | Raise e => Raise e
    end.

Declare Scope py_scope.
Delimit Scope py_scope with py.
Notation "x <- m ;; k" := (bind m (fun x => k))
  (at level 100, m at next level, right associativity) : py_scope.
Notation "m ;;; k" := (bind m (fun _ => k))
  (at level 100, right associativity) : py_scope.

(** [str(n)] for a Python [int]. *)
Definition str_of_Z (z : Z) : string := pretty z.

(** * [android_world/agents/infer.py] *)
Module infer.

Definition ERROR_CALLING_LLM : string := "Error calling LLM".

(** The retry budget both constructors compute from their [max_retry]
    argument (infer.py lines 103-106 and 162-165):
      [if max_retry <= 0: max_retry = 3]
      [self.max_retry = min(max_retry, 5)] *)
Definition effective_max_retry (max_retry : Z) : Z :=
  let max_retry := if max_retry <=? 0 then 3 else max_retry in
  Z.min max_retry 5.

(** ** [Gpt4Wrapper] *)
Module Gpt4Wrapper.

Definition RETRY_WAITING_SECONDS : Z := 20.

Record t := {
  openai_api_key : string;
  max_retry : Z;
  temperature : Q;
  model : string;
}.

(** [Gpt4Wrapper.__init__]; [environ] is [os.environ]. *)
Definition init (environ : gmap string string)
    (model_name : string) (max_retry : Z) (temperature : Q) : result t :=
  match environ !! "OPENAI_API_KEY" with
  | None => Raise (Exn RuntimeError "OpenAI API key not set.")
  | Some key =>
      Return {| openai_api_key := key;
                max_retry := effective_max_retry max_retry;
                temperature := temperature;
                model := model_name |}
  end.

(** What [response.json()] gives, as far as [predict_mm] looks at it:
    [choices] is [None] when the key ['choices'] is not in the body,
    [Some None] when it is there but
    [body['choices'][0]['message']['content']] raises, and
    [Some (Some s)] when that content is [s]; [error_message] is [Some m]
    when [body['error']['message']] is the string [m] and [None] when
    evaluating it (or concatenating it) raises. *)
Record body := {
  choices : option (option string);
  error_message : option string;
}.

(** A [requests.Response]: [ok] is [response.ok], [json] is [None] when
    [response.json()] raises. *)
Record response := {
  ok : bool;
  json : option body;
}.

(** The backend: the outcome of the k-th [requests.post] (k from 0). *)
Definition backend := nat -> result response.

Inductive event :=
| Post
| Sleep (seconds : Z).

Record state := {
  posts : nat;            (* remote calls made so far *)
  trace : list event;     (* most recent first *)
}.

Definition initial : state := {| posts := 0; trace := [] |}.

Definition requests_post (b : backend) : M state response :=
  fun s => (b (posts s), {| posts := S (posts s); trace := Post :: trace s |}).

Definition time_sleep (seconds : Z) : M state unit :=
  modify (fun s => {| posts := posts s; trace := Sleep seconds :: trace s |}).

(** What one pass through the body of the [while] loop does to the loop. *)
Inductive step (A : Type) :=
| Done (a : A)                          (* [return] *)
| Again (counter wait_seconds : Z).     (* next iteration *)
Arguments Done {A} a.
Arguments Again {A} counter wait_seconds.

Definition failed : exn := Exn OtherException "".

(** [response.json()] *)
Definition response_json (r : response) : M state body :=
  match json r with
  | Some bd => ret bd
  | None => raise failed
  end.

(** The [try] block of lines 212-226, [except] clause excluded. *)
Definition attempt (b : backend) (counter wait_seconds : Z)
  : M state (step (string * option response)) :=
  (response <- requests_post b ;;
   (* response.ok and 'choices' in response.json() *)
   well_formed <- (if ok response
                   then bd <- response_json response ;;
                        ret (match choices bd with Some _ => true | None => false end)
                   else ret false) ;;
   if (well_formed : bool) then
     bd <- response_json response ;;
     match choices bd with
     | Some (Some content) => ret (Done (content, Some response))
     | _ => raise failed       (* ...['choices'][0]['message']['content'] raises *)
     end
   else
     bd <- response_json response ;;
     match error_message bd with
     | None => raise failed    (* the argument of print raises *)
     | Some _ =>
         time_sleep wait_seconds ;;;
         ret (Again counter (wait_seconds * 2))
     end)%py.

(** One iteration: the [try] block with its [except Exception] clause
    (lines 227-233), which catches whatever the block raises. *)
Definition iteration (b : backend) (counter wait_seconds : Z) (s : state)
  : step (string * option response) * state :=
  match attempt b counter wait_seconds s with
  | (Return st, s') => (st, s')
  | (Raise _, s') =>
      (Again (counter - 1) (wait_seconds * 2),
       snd (time_sleep wait_seconds s'))
  end.

(** The [while counter > 0] loop of lines 211-234.  The loop need not
    terminate, so it is run for at most [fuel] iterations: [None] means
    that [fuel] iterations were performed and the loop is still running. *)
Fixpoint while_loop (fuel : nat) (b : backend) (counter wait_seconds : Z)
    (s : state) : option (string * option response) * state :=
  if counter >? 0 then
    match fuel with
    | O => (None, s)
    | S fuel' =>
        match iteration b counter wait_seconds s with
        | (Done r, s') => (Some r, s')
        | (Again counter' wait', s') => while_loop fuel' b counter' wait' s'
        end
    end
  else (Some (ERROR_CALLING_LLM, None), s).

(** [Gpt4Wrapper.predict_mm], bounded by [fuel] loop iterations. *)
Definition predict_mm (fuel : nat) (self : t) (b : backend) (s : state)
  : option (string * option response) * state :=
  while_loop fuel b (max_retry self) RETRY_WAITING_SECONDS s.

(** The sleeps of a trace, oldest first. *)
Definition sleeps (tr : list event) : list Z :=
  omap (fun e => match e with Sleep d => Some d | Post => None end) (reverse tr).

(** The delays of [k] consecutive failed attempts: [w], [2w], [4w], ... *)
Fixpoint backoff (k : nat) (wait_seconds : Z) : list Z :=
  match k with
  | O => []
  | S k' => wait_seconds :: backoff k' (wait_seconds * 2)
  end.

(** How [iteration] treats the outcome of a remote call: a well-formed
    answer, a failure that goes through the [except] clause, or a failure
    that stays in the [try] block. *)
Inductive verdict :=
| Answer (content : string)
| Excepted
| Reported.

Definition classify (r : result response) : verdict :=
  match r with
  | Raise _ => Excepted
  | Return resp =>
      match json resp with
      | None => Excepted
      | Some bd =>
          match ok resp, choices bd with
          | true, Some (Some content) => Answer content
          | true, Some None => Excepted
          | _, _ => match error_message bd with
                    | Some _ => Reported
                    | None => Excepted
                    end
          end
      end
  end.

(** The state after one more remote call followed by a sleep. *)
Definition post_then_sleep (seconds : Z) (s : state) : state :=
  {| posts := S (posts s); trace := Sleep seconds :: Post :: trace s |}.

(** ** Sample backends and instances *)

(** An instance built with the default [max_retry=3]. *)
Definition sample : t :=
  {| openai_api_key := "sk-test";
     max_retry := effective_max_retry 3;
     temperature := 0;
     model := "gpt-4o" |}.

(** A backend that refuses every request with a non-2xx reply of the
    usual shape [{"error": {"message": ...}}]. *)
Definition rate_limited : backend :=
  fun _ => Return {| ok := false;
                     json := Some {| choices := None;
                                     error_message := Some "Rate limit reached" |} |}.

(** A backend whose every call raises. *)
Definition unreachable : backend :=
  fun _ => Raise (Exn OtherException "Connection refused").

(** How many of the [k] calls from call [start] on fail through the
    [except] clause. *)
Fixpoint excepted_among (b : backend) (start k : nat) : nat :=
  match k with
  | O => 0
  | S k' =>
      (match classify (b start) with Excepted => 1 | _ => 0 end
       + excepted_among b (S start) k')%nat
  end.

(** A backend that raises on its first call, refuses the second with an
    error message and answers the third. *)
Definition third_time_lucky : backend :=
  fun k =>
    match k with
    | 0%nat => Raise (Exn OtherException "Connection reset")
    | 1%nat => Return {| ok := false;
                         json := Some {| choices := None;
                                         error_message := Some "Overloaded" |} |}
    | _ => Return {| ok := true;
                     json := Some {| choices := Some (Some "CLICK 3");
                                     error_message := None |} |}
    end.


End Gpt4Wrapper.

(** ** [GeminiGcpWrapper] *)
Module GeminiGcpWrapper.

Definition TIME_BETWEEN_REQUESTS : Q := 15.

(** What [self.llm.generate_content] returns: [text] is [None] when
    reading [output.text] raises. *)
Record output := {
  text : option string;
}.

(** The surroundings of an instance: the outcome of the k-th
    [generate_content] call (k from 0), and the time that passes at the
    k-th point where the thread blocks or is away from the wrapper: during
    a remote call, past the requested duration of a [time.sleep], and
    between two calls of [predict_mm]. *)
Record world := {
  generate_content : nat -> result output;
  lag : nat -> Q;
}.

(** The instance ([max_retry], [time_of_last_request]) together with the
    clock and the record of the requests issued. *)
Record state := {
  max_retry : Z;
  time_of_last_request : Q;
  now : Q;                  (* what [time.time()] reads *)
  ticks : nat;              (* blocking points passed *)
  requests : list Q;        (* issue times of the remote requests, most recent first *)
}.

Definition elapse (w : world) : M state unit :=
  modify (fun s => {| max_retry := max_retry s;
                      time_of_last_request := time_of_last_request s;
                      now := (now s + lag w (ticks s))%Q;
                      ticks := S (ticks s);
                      requests := requests s |}).

Definition time_time : M state Q := fun s => (Return (now s), s).

Definition time_sleep (w : world) (seconds : Q) : M state unit :=
  (modify (fun s => {| max_retry := max_retry s;
                       time_of_last_request := time_of_last_request s;
                       now := (now s + seconds)%Q;
                       ticks := ticks s;
                       requests := requests s |}) ;;;
   elapse w)%py.

Definition set_time_of_last_request (t : Q) : M state unit :=
  modify (fun s => {| max_retry := max_retry s;
                      time_of_last_request := t;
                      now := now s;
                      ticks := ticks s;
                      requests := requests s |}).

Definition llm_generate_content (w : world) : M state output :=
  (r <- (fun s => (generate_content w (length (requests s)),
                   {| max_retry := max_retry s;
                      time_of_last_request := time_of_last_request s;
                      now := now s;
                      ticks := ticks s;
                      requests := now s :: requests s |})) ;;
   elapse w ;;;
   ret r)%py.

(** [GeminiGcpWrapper.__init__]; [environ] is [os.environ] and [t0] what
    [time.time()] reads in the constructor. *)
Definition init (environ : gmap string string) (max_retry : Z) (t0 : Q)
  : result state :=
  match environ !! "GCP_API_KEY" with
  | None => Raise (Exn RuntimeError "GCP API key not set.")
  | Some _ =>
      Return {| max_retry := effective_max_retry max_retry;
                time_of_last_request := (t0 - TIME_BETWEEN_REQUESTS)%Q;
                now := t0;
                ticks := 0;
                requests := [] |}
  end.

Definition failed : exn := Exn OtherException "".

(** The [try] block of lines 121-129. *)
Definition attempt (w : world) : M state (string * option output) :=
  (t <- time_time ;;
   self <- get ;;
   let time_since_last_request := (t - time_of_last_request self)%Q in
   (if Qlt_le_dec time_since_last_request TIME_BETWEEN_REQUESTS
    then time_sleep w (TIME_BETWEEN_REQUESTS - time_since_last_request)%Q
    else ret tt) ;;;
   t' <- time_time ;;
   set_time_of_last_request t' ;;;
   output <- llm_generate_content w ;;
   match text output with
   | Some txt => ret (txt, Some output)
   | None => raise failed
   end)%py.

(** The [while counter > 0] loop of lines 120-137, run for at most
    [fuel] iterations ([None]: still running). *)
Fixpoint while_loop (fuel : nat) (w : world) (counter : Z) (retry_delay : Q)
    (s : state) : option (string * option output) * state :=
  if counter >? 0 then
    match fuel with
    | O => (None, s)
    | S fuel' =>
        match attempt w s with
        | (Return r, s') => (Some r, s')
        | (Raise _, s') =>
            let counter := counter - 1 in
            if counter >? 0 then
              while_loop fuel' w counter (retry_delay * 2)%Q
                (snd (time_sleep w retry_delay s'))
            else
              while_loop fuel' w counter retry_delay s'
        end
    end
  else (Some (ERROR_CALLING_LLM, None), s).

(** [GeminiGcpWrapper.predict_mm].  Every failed iteration decrements
    [counter], so [max_retry] iterations are all the loop can make. *)
Definition predict_mm (w : world) (s : state)
  : option (string * option output) * state :=
  while_loop (Z.to_nat (max_retry s)) w (max_retry s) TIME_BETWEEN_REQUESTS s.


(** The issue times of the requests, oldest first. *)
Definition request_times (s : state) : list Q := reverse (requests s).


(** ** Sample surroundings *)

(** Every remote call raises after one second; every other blocking
    point takes one second too. *)
Definition always_failing : world :=
  {| generate_content := fun _ => Raise (Exn OtherException "503");
     lag := fun _ => 1%Q |}.


(** The instance [GeminiGcpWrapper(max_retry=2)] built at time 100. *)
Definition sample : state :=
  {| max_retry := 2;
     time_of_last_request := (100 - TIME_BETWEEN_REQUESTS)%Q;
     now := 100;
     ticks := 0;
     requests := [] |}.

(** A remote call that does not bring a text: the call raises, or
    reading [output.text] does. *)
Definition fails (r : result output) : Prop :=
  match r with
  | Raise _ => True
  | Return o => text o = None
  end.

(** Requests (oldest first) that back off: the second comes at least [d]
    after the first, the third at least [2 d] after the second, and so
    on, doubling. *)
Fixpoint backed_off (d : Q) (times : list Q) : Prop :=
  match times with
  | r1 :: ((r2 :: _) as rest) => (r1 + d <= r2)%Q /\ backed_off (d * 2)%Q rest
  | _ => True
  end.

(** The first [k] remote calls raise, the later ones answer. *)
Definition answers_after (k : nat) : world :=
  {| generate_content := fun i =>
       if (i <? k)%nat then Raise (Exn OtherException "429")
       else Return {| text := Some "CLICK 3" |};
     lag := fun _ => 1%Q |}.


End GeminiGcpWrapper.

End infer.

(** * [android_world/env/ui_tree_wrapper.py] *)
Module ui_tree_wrapper.

(** The classes an environment object can be an instance of. *)
Inductive env_class :=
| AndroidEnv
| A11yGrpcWrapper
| UITreeWrapper
| OtherWrapper.

Definition env_class_eqb (a b : env_class) : bool :=
  match a, b with
  | AndroidEnv, AndroidEnv | A11yGrpcWrapper, A11yGrpcWrapper
  | UITreeWrapper, UITreeWrapper | OtherWrapper, OtherWrapper => true
  | _, _ => false
  end.

(** An environment object: its class and, when it has an [_env]
    attribute, the environment held there. *)
Inductive env_obj :=
| Plain (cls : env_class)
| Wrapping (cls : env_class) (_env : env_obj).

(** [_has_wrapper] (lines 33-51) *)
Fixpoint _has_wrapper (env : env_obj) (target_wrapper : env_class) : bool :=
  match env with
  | Plain cls => env_class_eqb cls target_wrapper
  | Wrapping cls inner =>
      if env_class_eqb cls target_wrapper then true
      else _has_wrapper inner target_wrapper
  end.

(** The classes of an environment object and of the objects it wraps,
    outermost first. *)
Fixpoint classes (env : env_obj) : list env_class :=
  match env with
  | Plain cls => [cls]
  | Wrapping cls inner => cls :: classes inner
  end.


Section Forest.

(** [AndroidAccessibilityForest], opaque to this file. *)
Context {forest : Type}.

(** The device behind the session: the outcome of the k-th call (k from
    0, counted over the whole life of the wrapper) of
    [env.accumulate_new_extras()], of
    [adb_utils.retry(3)(adb_utils.check_airplane_mode)(env)] and of
    [loader.load]. *)
Record device := {
  accumulate_new_extras : nat -> result (gmap string (list forest));
  check_airplane_mode : nat -> result bool;
  loader_load : nat -> result env_obj;
}.

Record state := {
  self_env : env_obj;        (* [self._env] *)
  polls : nat;               (* calls of [accumulate_new_extras] so far *)
  probes : nat;              (* airplane-mode probes so far *)
  loads : nat;               (* [loader.load] calls so far: reconnects *)
  networking_enabled : nat;  (* calls of [attempt_enable_networking] *)
  slept : list Q;            (* [time.sleep] durations, most recent first *)
}.

Definition env_accumulate_new_extras (d : device)
  : M state (gmap string (list forest)) :=
  fun s => (accumulate_new_extras d (polls s),
            {| self_env := self_env s; polls := S (polls s);
               probes := probes s; loads := loads s;
               networking_enabled := networking_enabled s;
               slept := slept s |}).

Definition adb_check_airplane_mode (d : device) : M state bool :=
  fun s => (check_airplane_mode d (probes s),
            {| self_env := self_env s; polls := polls s;
               probes := S (probes s); loads := loads s;
               networking_enabled := networking_enabled s;
               slept := slept s |}).

Definition env_attempt_enable_networking : M state unit :=
  modify (fun s => {| self_env := self_env s; polls := polls s;
                      probes := probes s; loads := loads s;
                      networking_enabled := S (networking_enabled s);
                      slept := slept s |}).

Definition time_sleep (seconds : Q) : M state unit :=
  modify (fun s => {| self_env := self_env s; polls := polls s;
                      probes := probes s; loads := loads s;
                      networking_enabled := networking_enabled s;
                      slept := seconds :: slept s |}).

(** [try: m except C: h], for the exception classes [C] selected by
    [catches]; any other exception propagates. *)
Definition try_except_class {A} (catches : exn -> bool)
    (m : M state A) (h : exn -> M state A) : M state A :=
  fun s => match m s with
           | (Return a, s') => (Return a, s')
           | (Raise e, s') => if catches e then h e s' else (Raise e, s')
           end.

(** [env.accumulate_new_extras()['accessibility_tree'][-1]] (line 91) *)
Definition latest_forest (d : device) : M state forest :=
  (extras <- env_accumulate_new_extras d ;;
   match extras !! "accessibility_tree" with
   | None => raise (Exn KeyError "'accessibility_tree'")
   | Some trees =>
       match last trees with
       | None => raise (Exn IndexError "list index out of range")
       | Some f => ret f
       end
   end)%py.

(** The [for _ in range(max_retries)] loop of lines 89-95: [Some f] when
    the body returned [f], [None] when the loop ran to its end (the local
    [forest] is then still [None]). *)
Fixpoint poll_loop (d : device) (n : nat) (sleep_duration : Q)
  : M state (option forest) :=
  match n with
  | O => ret None
  | S n' =>
      (r <- try_except_class is_KeyError
              (f <- latest_forest d ;; ret (Some f))
              (fun _ => ret None) ;;
       match r with
       | Some f => ret (Some f)
       | None => time_sleep sleep_duration ;;; poll_loop d n' sleep_duration
       end)%py
  end.

(** [get_a11y_tree] (lines 54-99) *)
Definition get_a11y_tree (d : device) (env : env_obj)
    (max_retries : Z) (sleep_duration : Q) : M state forest :=
  (if negb (_has_wrapper env A11yGrpcWrapper) then
     raise (Exn ValueError
              "Must use a11y_grpc_wrapper.A11yGrpcWrapper to get the a11y tree.")
   else
     airplane <- adb_check_airplane_mode d ;;
     (if (airplane : bool)
      then env_attempt_enable_networking ;;; time_sleep 1%Q
      else ret tt) ;;;
     r <- poll_loop d (Z.to_nat max_retries) sleep_duration ;;
     match r with
     | Some f => ret f
     | None => raise (Exn RuntimeError "Could not get a11y tree.")
     end)%py.

(** [UITreeWrapper.__init__]: the environment is wrapped in an
    [A11yGrpcWrapper], which becomes [self._env]. *)
Definition UITreeWrapper_init (env : env_obj) : env_obj :=
  Wrapping A11yGrpcWrapper env.

(** [get_wrapped(...)] followed by [.env] (lines 212-232 and 168-169) *)
Definition get_wrapped_env (d : device) : M state env_obj :=
  (android_env_instance <-
     (fun s => (loader_load d (loads s),
                {| self_env := self_env s; polls := polls s;
                   probes := probes s; loads := S (loads s);
                   networking_enabled := networking_enabled s;
                   slept := slept s |})) ;;
   ret (UITreeWrapper_init android_env_instance))%py.

(** [UITreeWrapper.refresh_env] (lines 171-180) *)
Definition refresh_env (d : device) : M state unit :=
  (env <- get_wrapped_env d ;;
   modify (fun s => {| self_env := env; polls := polls s;
                       probes := probes s; loads := loads s;
                       networking_enabled := networking_enabled s;
                       slept := slept s |}))%py.

(** [UITreeWrapper.get_a11y_forest] (lines 184-196); [get_a11y_tree] is
    called with its defaults [max_retries=5], [sleep_duration=1.0]. *)
Definition get_a11y_forest (d : device) : M state forest :=
  try_except_class is_RuntimeError
    (self <- get ;; get_a11y_tree d (self_env self) 5 1%Q)%py
    (fun _ =>
       (refresh_env d ;;;
        self <- get ;; get_a11y_tree d (self_env self) 5 1%Q)%py).

(** A wrapper as [UITreeWrapper.__init__] leaves it. *)
Definition fresh (env : env_obj) : state :=
  {| self_env := UITreeWrapper_init env; polls := 0; probes := 0;
     loads := 0; networking_enabled := 0; slept := [] |}.

(** ** The outcomes of a poll *)

(** The poll finds no snapshot: line 91 raises [KeyError]. *)
Definition no_snapshot (r : result (gmap string (list forest))) : Prop :=
  match r with
  | Return extras => extras !! "accessibility_tree" = None
  | Raise e => is_KeyError e = true
  end.

(** The poll yields the snapshot [f]. *)
Definition snapshot (r : result (gmap string (list forest))) (f : forest)
  : Prop :=
  exists extras trees,
    r = Return extras
    /\ extras !! "accessibility_tree" = Some trees
    /\ last trees = Some f.

(** Line 91 raises [e], which is not a [KeyError]: the call itself raises
    it, or the entry is an empty list and indexing it raises [IndexError]. *)
Definition poll_raises (r : result (gmap string (list forest))) (e : exn)
  : Prop :=
  (r = Raise e /\ is_KeyError e = false)
  \/ (exists extras,
         r = Return extras
         /\ extras !! "accessibility_tree" = Some []
         /\ e = Exn IndexError "list index out of range").

(** [s'] is [s] after that many polls, probes and reconnects. *)
Definition moved (s s' : state) (dpolls dprobes dloads : nat) : Prop :=
  polls s' = (polls s + dpolls)%nat
  /\ probes s' = (probes s + dprobes)%nat
  /\ loads s' = (loads s + dloads)%nat.

(** The state in which the polling of a [get_a11y_tree] call starts:
    after the airplane-mode probe, which answered [b]. *)
Definition probed (d : device) (b : bool) (s : state) : state :=
  snd ((if b then (env_attempt_enable_networking ;;; time_sleep 1%Q)%py
        else ret tt)
         (snd (adb_check_airplane_mode d s))).

(** The state after one poll that found nothing and the sleep after it. *)
Definition missed (d : device) (sleep_duration : Q) (s : state) : state :=
  snd (time_sleep sleep_duration (snd (env_accumulate_new_extras d s))).


(** The [except RuntimeError] clause of [get_a11y_forest] (lines 190-196). *)
Definition reconnect_and_retry (d : device) : M state forest :=
  (refresh_env d ;;;
   self <- get ;; get_a11y_tree d (self_env self) 5 1%Q)%py.

(** ** Sample devices *)

(** The first [misses] polls find nothing, every later one yields [f];
    airplane mode is off and reconnecting works. *)
Definition ready_after (misses : nat) (f : forest) : device :=
  {| accumulate_new_extras := fun k =>
       if (k <? misses)%nat then Return ∅
       else Return (<["accessibility_tree" := [f]]> ∅);
     check_airplane_mode := fun _ => Return false;
     loader_load := fun _ => Return (Plain AndroidEnv) |}.



(** Whether a poll ended the loop: [0] when the loop ran to its end. *)
Definition ended (r : result (option forest)) : nat :=
  match r with
  | Return None => 0
  | _ => 1
  end.

(** Nothing is ever found, airplane mode is on, and the emulator cannot
    be reached again. *)
Definition dead_session : device :=
  {| accumulate_new_extras := fun _ => Return ∅;
     check_airplane_mode := fun _ => Return true;
     loader_load := fun _ => Raise (Exn OtherException "emulator not found") |}.

(** A wrapper whose [_env] was replaced by a bare environment. *)
Definition unwrapped : state :=
  {| self_env := Plain AndroidEnv; polls := 0; probes := 0;
     loads := 0; networking_enabled := 0; slept := [] |}.


End Forest.
Arguments device : clear implicits.

End ui_tree_wrapper.

(** * [benchmark_run.py] *)
Module benchmark_run.

Inductive agent_kind := T3A | M3A | SeeAct.

(** The command-line arguments the episode loop reads.  [agent] is
    [None] when [--agent] is not given: no branch of lines 54-71 then
    binds [agent]. *)
Record args := {
  task : string;
  output_dir : string;
  max_rounds : Z;
  agent : option agent_kind;
}.

(** Lines 54-71: the keys under which an agent stores its data. *)
Definition screenshot_key (ag : agent_kind) : string :=
  match ag with
  | M3A | T3A => "benchmark_screenshot"
  | SeeAct => "screenshot"
  end.

Definition grounded_action_key (ag : agent_kind) : string :=
  match ag with
  | M3A | T3A => "converted_action"
  | SeeAct => "action"
  end.

Definition log_keys (ag : agent_kind) : list string :=
  match ag with
  | M3A | T3A => ["action_output"; "summary"]
  | SeeAct => ["action_gen_response"; "action_ground_response"]
  end.

Definition raw_response_key (ag : agent_kind) : list string :=
  match ag with
  | M3A | T3A => ["action_raw_response"; "summary_raw_response"]
  | SeeAct => ["raw_action_gen_response"; "raw_action_ground_response"]
  end.

(** A grounded action object ([JSONAction]): the attributes the driver
    reads, each possibly [None]. *)
Record json_action := {
  action_type : option string;
  text : option string;
  app_name : option string;
  direction : option string;
}.

(** The two shapes of a raw backend response: a [requests.Response]
    (read with [.json()]) and a plain [dict]. *)
Inductive raw_shape := HttpResponse | Dict.

(** The values found in [response.data]. *)
Inductive value :=
| VNone
| VStr (s : string)
| VArray (pixels : list Z)                     (* a numpy image *)
| VCoords (c : list Z)                         (* a list of numbers *)
| VAction (a : json_action)
| VRaw (shape : raw_shape) (usage : option (Z * Z)).
    (* a raw response; [usage] is (prompt_tokens, completion_tokens),
       [None] when ['usage'] cannot be read *)

(** What [agent.step] returns. *)
Record response := {
  data : gmap string value;
  done : bool;
}.

(** [action_log]: [[action_type, {"detail_type": ..., "detail": ...}]] *)
Record action_log := {
  log_action_type : string;
  detail_type : string;
  detail : value;
}.

Record step_entry := {
  step : Z;
  logged : list (string * value);     (* the entries for [log_keys] *)
  prompt_tokens : Z;
  completion_tokens : Z;
  action : action_log;
}.

Record summary_entry := {
  total_steps : Z;
  finish_signal : Z;
  elapsed_time_initial : Q;
  elapsed_time_exec : Q;
  total_prompt_tokens : Z;
  total_completion_tokens : Z;
}.

Inductive log_entry :=
| StepEntry (e : step_entry)
| SummaryEntry (e : summary_entry).

(** The files of the output directory. *)
Inductive file :=
| ErrorJson (entries : list string)   (* [[{"error_message": m}, ...]] *)
| LogJson (entries : list log_entry)
| Png (pixels : list Z).

(** The outside of the driver: what [agent.step(args.task)] does in
    round [action_cnt], and what the k-th [time.time()] reads. *)
Record world := {
  agent_step : Z -> result response;
  clock : nat -> Q;
}.

(** The variables of the script and the file system it writes to.
    [action_cnt] is [None] as long as the [for] statement has not bound
    it.  [written] lists the paths opened for writing, most recent first. *)
Record state := {
  fs : gmap string file;
  written : list string;
  is_done : bool;
  benchmark_log : list log_entry;
  error_code : Z;
  prompt_total : Z;           (* [total_prompt_tokens] *)
  completion_total : Z;       (* [total_completion_tokens] *)
  action_cnt : option Z;
  env_closed : nat;           (* calls of [env.close()] *)
}.

Definition write_file (path : string) (f : file) : M state unit :=
  modify (fun s =>
    {| fs := <[path := f]> (fs s); written := path :: written s;
       is_done := is_done s; benchmark_log := benchmark_log s;
       error_code := error_code s; prompt_total := prompt_total s;
       completion_total := completion_total s; action_cnt := action_cnt s;
       env_closed := env_closed s |}).

Definition set_is_done (b : bool) : M state unit :=
  modify (fun s =>
    {| fs := fs s; written := written s;
       is_done := b; benchmark_log := benchmark_log s;
       error_code := error_code s; prompt_total := prompt_total s;
       completion_total := completion_total s; action_cnt := action_cnt s;
       env_closed := env_closed s |}).

Definition set_error_code (c : Z) : M state unit :=
  modify (fun s =>
    {| fs := fs s; written := written s;
       is_done := is_done s; benchmark_log := benchmark_log s;
       error_code := c; prompt_total := prompt_total s;
       completion_total := completion_total s; action_cnt := action_cnt s;
       env_closed := env_closed s |}).

Definition set_action_cnt (c : Z) : M state unit :=
  modify (fun s =>
    {| fs := fs s; written := written s;
       is_done := is_done s; benchmark_log := benchmark_log s;
       error_code := error_code s; prompt_total := prompt_total s;
       completion_total := completion_total s; action_cnt := Some c;
       env_closed := env_closed s |}).

Definition add_tokens (p c : Z) : M state unit :=
  modify (fun s =>
    {| fs := fs s; written := written s;
       is_done := is_done s; benchmark_log := benchmark_log s;
       error_code := error_code s; prompt_total := prompt_total s + p;
       completion_total := completion_total s + c;
       action_cnt := action_cnt s; env_closed := env_closed s |}).

(** [benchmark_log.append(e)] *)
Definition log_append (e : log_entry) : M state unit :=
  modify (fun s =>
    {| fs := fs s; written := written s;
       is_done := is_done s; benchmark_log := benchmark_log s ++ [e];
       error_code := error_code s; prompt_total := prompt_total s;
       completion_total := completion_total s; action_cnt := action_cnt s;
       env_closed := env_closed s |}).

Definition env_close : M state unit :=
  modify (fun s =>
    {| fs := fs s; written := written s;
       is_done := is_done s; benchmark_log := benchmark_log s;
       error_code := error_code s; prompt_total := prompt_total s;
       completion_total := completion_total s; action_cnt := action_cnt s;
       env_closed := S (env_closed s) |}).

(** [print_and_log_error] (lines 29-37); the [print] is not modelled. *)
Definition print_and_log_error (a : args) (error_message : string)
  : M state unit :=
  (let error_log := [error_message] in
   let filename := output_dir a +:+ "/error.json" in
   s <- get ;;
   match fs s !! filename with           (* os.path.exists(filename) *)
   | Some _ => ret tt
   | None => write_file filename (ErrorJson error_log)
   end)%py.

(** [d[key]] on [response.data] *)
Definition lookup_data (d : gmap string value) (key : string) : result value :=
  match d !! key with
  | Some v => Return v
  | None => Raise (Exn KeyError ("'" +:+ key +:+ "'"))
  end.

Definition dquote : string := String "034"%char EmptyString.

(** [str(x)] inside an f-string, for an attribute that may be [None]. *)
Definition str_of_attr (x : option string) : string :=
  match x with
  | Some s => s
  | None => "None"
  end.

(** [a, b, c, d = v] *)
Definition unpack4 (v : value) : result (Z * Z * Z * Z) :=
  match v with
  | VCoords [a; b; c; d] => Return (a, b, c, d)
  | VCoords _ => Raise (Exn ValueError "wrong number of values to unpack")
  | _ => Raise (Exn TypeError "cannot unpack non-iterable object")
  end.

(** Lines 94-139: the normalisation of the grounded action into
    [action_log]. *)
Definition normalize (ag : agent_kind) (d : gmap string value)
  : result action_log :=
  let coordinates :=
    lookup_data d "actual_action_coordinates" in
  converted_action ← lookup_data d (grounded_action_key ag);
   match converted_action with
   | VStr _ =>                            (* type(converted_action) is str *)
       Return {| log_action_type := "wait"; detail_type := "string";
                 detail := VStr "" |}
   | VAction act =>
       let tag := action_type act in
       if decide (tag = Some "click") then
         c ← coordinates;
         Return {| log_action_type := "click"; detail_type := "coordinates";
                   detail := c |}
       else if decide (tag = Some "double_tap") then
         c ← coordinates;
         Return {| log_action_type := "double_tap"; detail_type := "coordinates";
                   detail := c |}
       else if decide (tag = Some "input_text") then
         Return {| log_action_type := "input_text"; detail_type := "string";
                   detail := VStr ("The text " +:+ dquote +:+ str_of_attr (text act)
                                   +:+ dquote +:+ " has been inputted.") |}
       else if decide (tag = Some "keyboard_enter") then
         Return {| log_action_type := "keyboard_enter"; detail_type := "string";
                   detail := VStr "" |}
       else if decide (tag = Some "long_press") then
         c ← coordinates;
         Return {| log_action_type := "long_press"; detail_type := "coordinates";
                   detail := c |}
       else if decide (tag = Some "navigate_back") then
         Return {| log_action_type := "navigate_back"; detail_type := "string";
                   detail := VStr "Back to the previous page." |}
       else if decide (tag = Some "navigate_home") then
         Return {| log_action_type := "navigate_home"; detail_type := "string";
                   detail := VStr "Return to home page." |}
       else if decide (tag = Some "open_app") then
         Return {| log_action_type := "open_app"; detail_type := "string";
                   detail := match app_name act with
                             | Some n => VStr n
                             | None => VNone
                             end |}
       else if decide (tag = Some "scroll") then
         c ← coordinates;
         xs ← unpack4 c;
         let '(x, y, _, _) := xs in
         Return {| log_action_type := "scroll"; detail_type := "string";
                   detail := VStr ("The coordinates (" +:+ str_of_Z x +:+ ","
                                   +:+ str_of_Z y +:+ ") have been swiped to the "
                                   +:+ str_of_attr (direction act) +:+ ".") |}
       else if decide (tag = Some "status") then
         Return {| log_action_type := "status"; detail_type := "string";
                   detail := VStr "Task completed." |}
       else if decide (tag = Some "swipe") then
         c ← coordinates;
         xs ← unpack4 c;
         let '(x1, y1, x2, y2) := xs in
         Return {| log_action_type := "swipe"; detail_type := "string";
                   detail := VStr ("The swipe action has been performed starting from coordinates ("
                                   +:+ str_of_Z x1 +:+ "," +:+ str_of_Z y1 +:+ ") to ("
                                   +:+ str_of_Z x2 +:+ "," +:+ str_of_Z y2 +:+ ").") |}
       else                               (* ['answer', 'unknown', 'wait'] *)
         Return {| log_action_type := "wait"; detail_type := "string";
                   detail := VStr "No action has been taken." |}
   | _ =>                                 (* no attribute [action_type] *)
       Raise (Exn AttributeError "object has no attribute 'action_type'")
   end.

(** [response.data[key].json()['usage']] for the agents M3A and T3A,
    [response.data[key]['usage']] for SeeAct (lines 140-145). *)
Definition usage_of (ag : agent_kind) (v : value) : result (Z * Z) :=
  match ag, v with
  | (M3A | T3A), VRaw HttpResponse usage
  | SeeAct, VRaw Dict usage =>
      match usage with
      | Some u => Return u
      | None => Raise (Exn KeyError "'usage'")
      end
  | (M3A | T3A), _ => Raise (Exn AttributeError "object has no attribute 'json'")
  | SeeAct, _ => Raise (Exn TypeError "object is not subscriptable")
  end.

(** [[... for key in raw_response_key if response.data[key] is not None]] *)
Fixpoint token_counts (ag : agent_kind) (sel : Z * Z -> Z)
    (d : gmap string value) (keys : list string) : result (list Z) :=
  match keys with
  | [] => Return []
  | key :: keys' =>
      v ← lookup_data d key;
       match v with
       | VNone => token_counts ag sel d keys'
       | _ =>
           u ← usage_of ag v;
           rest ← token_counts ag sel d keys';
           Return (sel u :: rest)
       end
  end.

(** [sum(...)] *)
Definition sum (l : list Z) : Z := foldr Z.add 0 l.

(** [{key: response.data[key] for key in log_keys}] *)
Fixpoint collect (d : gmap string value) (keys : list string)
  : result (list (string * value)) :=
  match keys with
  | [] => Return []
  | key :: keys' =>
      v ← lookup_data d key;
       rest ← collect d keys';
       Return ((key, v) :: rest)
  end.

(** [Image.fromarray(v, 'RGB')] *)
Definition image_fromarray (v : value) : result (list Z) :=
  match v with
  | VArray pixels => Return pixels
  | _ => Raise (Exn TypeError "cannot handle this data type")
  end.

(** Lines 90-153: the screenshot, the normalised action, the token
    counts and the step entry of round [cnt]. *)
Definition log_step (a : args) (ag : agent_kind) (r : response) (cnt : Z)
  : M state unit :=
  (screenshot <- lift (array ← lookup_data (data r) (screenshot_key ag);
                       image_fromarray array) ;;
   write_file (output_dir a +:+ "/" +:+ str_of_Z (cnt - 1) +:+ ".png")
     (Png screenshot) ;;;
   action_log <- lift (normalize ag (data r)) ;;
   prompt <- lift (token_counts ag fst (data r) (raw_response_key ag)) ;;
   let prompt_tokens := sum prompt in
   completion <- lift (token_counts ag snd (data r) (raw_response_key ag)) ;;
   let completion_tokens := sum completion in
   add_tokens prompt_tokens completion_tokens ;;;
   entries <- lift (collect (data r) (log_keys ag)) ;;
   log_append (StepEntry {| step := cnt; logged := entries;
                            prompt_tokens := prompt_tokens;
                            completion_tokens := completion_tokens;
                            action := action_log |}))%py.

(** [agent.step(args.task)] in round [cnt]; the name [agent] is unbound
    when [--agent] was not given. *)
Definition agent_step_call (a : args) (w : world) (cnt : Z)
  : result (agent_kind * response) :=
  match agent a with
  | None => Raise (Exn NameError "name 'agent' is not defined")
  | Some ag => r ← agent_step w cnt; Return (ag, r)
  end.

(** The body of the [for] loop (lines 83-161) in round [cnt]; the result
    is [true] when the body ends in [break]. *)
Definition round (a : args) (w : world) (cnt : Z) : M state bool :=
  (set_action_cnt cnt ;;;
   step_result <-
     try_except (x <- lift (agent_step_call a w cnt) ;; ret (Some x))
       (fun e =>
          print_and_log_error a ("Error taking step: " +:+ exn_msg e) ;;;
          set_error_code 2 ;;;
          ret None) ;;
   match step_result with
   | None => ret true
   | Some (ag, response) =>
       try_except
         (log_step a ag response cnt ;;;
          if done response then set_is_done true ;;; ret true
          else ret false)
         (fun e =>
            print_and_log_error a ("Error handling log: " +:+ exn_msg e) ;;;
            set_error_code 1 ;;;
            ret true)
   end)%py.

(** [for action_cnt in cnts: ...] *)
Fixpoint for_loop (a : args) (w : world) (cnts : list Z) : M state unit :=
  match cnts with
  | [] => ret tt
  | cnt :: rest =>
      (stop <- round a w cnt ;;
       if (stop : bool) then ret tt else for_loop a w rest)%py
  end.

(** [range(1, stop)] *)
Definition range1 (stop : Z) : list Z := seqZ 1 (stop - 1).

(** How the process ends: [sys.exit(code)], or an exception nobody
    catches, on which the interpreter exits with status 1. *)
Inductive exit :=
| SysExit (code : Z)
| Uncaught (e : exn).


Definition initial (fs0 : gmap string file) : state :=
  {| fs := fs0; written := []; is_done := false; benchmark_log := [];
     error_code := 0; prompt_total := 0; completion_total := 0;
     action_cnt := None; env_closed := 0 |}.

(** Lines 177-188 *)
Definition exit_code_selection (a : args) (s : state) (cnt : Z) : exit :=
  if bool_decide (error_code s ∈ [2; 3]) then SysExit (error_code s)
  else if is_done s then SysExit 0
  else if bool_decide (cnt = max_rounds a) then SysExit 4
  else SysExit 1.

(** The script from line 40 on.  The arguments [--task], [--output_dir]
    and [--max_rounds] are given; loading and resetting the environment,
    building the agent and writing a file are taken to succeed; what the
    script prints is left out. *)
Definition main (a : args) (w : world) : M state exit :=
  (let start_time_initial := clock w 0 in
   let end_time_initial := clock w 1 in
   let elapsed_time_initial := (end_time_initial - start_time_initial)%Q in
   let start_time_exec := clock w 2 in
   for_loop a w (range1 (max_rounds a + 1)) ;;;
   env_close ;;;                                     (* finally *)
   let end_time_exec := clock w 3 in
   let elapsed_time_exec := (end_time_exec - start_time_exec)%Q in
   s <- get ;;
   match action_cnt s with
   | None => ret (Uncaught (Exn NameError "name 'action_cnt' is not defined"))
   | Some cnt =>
       log_append (SummaryEntry
         {| total_steps := cnt - 1;
            finish_signal := Z.b2z (is_done s);
            elapsed_time_initial := elapsed_time_initial;
            elapsed_time_exec := elapsed_time_exec;
            total_prompt_tokens := prompt_total s;
            total_completion_tokens := completion_total s |}) ;;;
       s <- get ;;
       write_file (output_dir a +:+ "/log.json") (LogJson (benchmark_log s)) ;;;
       ret (exit_code_selection a s cnt)
   end)%py.

(** A run from a given output directory: how the process exits and the
    state it leaves. *)
Definition run (a : args) (w : world) (fs0 : gmap string file) : exit * state :=
  match main a w (initial fs0) with
  | (Return x, s) => (x, s)
  | (Raise e, s) => (Uncaught e, s)
  end.

(** The step entries and the summary entries of a log. *)
Definition step_entries (l : list log_entry) : list step_entry :=
  omap (fun e => match e with StepEntry e => Some e | _ => None end) l.

Definition summary_entries (l : list log_entry) : list summary_entry :=
  omap (fun e => match e with SummaryEntry e => Some e | _ => None end) l.

(** The action types the table of lines 109-135 knows. *)
Definition action_types : list string :=
  ["click"; "double_tap"; "input_text"; "keyboard_enter"; "long_press";
   "navigate_back"; "navigate_home"; "open_app"; "scroll"; "status"; "swipe"].

Definition wait_taken : action_log :=
  {| log_action_type := "wait"; detail_type := "string";
     detail := VStr "No action has been taken." |}.


(** The step entry that lines 90-153 build in round [cnt], or the first
    exception they raise. *)
Definition step_record (ag : agent_kind) (r : response) (cnt : Z)
  : result step_entry :=
  _ ← (array ← lookup_data (data r) (screenshot_key ag);
       image_fromarray array);
  action_log ← normalize ag (data r);
  prompt ← token_counts ag fst (data r) (raw_response_key ag);
  completion ← token_counts ag snd (data r) (raw_response_key ag);
  entries ← collect (data r) (log_keys ag);
  Return {| step := cnt; logged := entries;
            prompt_tokens := sum prompt;
            completion_tokens := sum completion;
            action := action_log |}.

(** What a round leaves alone besides the files: [s'] has the flags,
    the round counter and the [env.close()] count of [s]. *)
Definition kept (s s' : state) : Prop :=
  is_done s' = is_done s
  /\ error_code s' = error_code s
  /\ action_cnt s' = action_cnt s
  /\ env_closed s' = env_closed s.

(** [s'] has the log and the token totals of [s]. *)
Definition same_log (s s' : state) : Prop :=
  benchmark_log s' = benchmark_log s
  /\ prompt_total s' = prompt_total s
  /\ completion_total s' = completion_total s.

(** The four ways out of the [for] loop. *)
Inductive stop :=
| Completed        (* [break] after [response.done] *)
| MaxRounds        (* the [range] is exhausted *)
| StepError        (* [agent.step] raised *)
| LogError.        (* lines 90-156 raised *)

(** ** The loop, without the state

    Where and how the loop over the rounds [cnts] stops, and the step
    entries it has logged by then, as functions of what the agent does:
    [None] when there is no round at all. *)
Fixpoint outcome (a : args) (w : world) (cnts : list Z) : option (Z * stop) :=
  match cnts with
  | [] => None
  | cnt :: rest =>
      match agent_step_call a w cnt with
      | Raise _ => Some (cnt, StepError)
      | Return (ag, r) =>
          match step_record ag r cnt with
          | Raise _ => Some (cnt, LogError)
          | Return _ =>
              if done r then Some (cnt, Completed)
              else match outcome a w rest with
                   | None => Some (cnt, MaxRounds)
                   | Some o => Some o
                   end
          end
      end
  end.

Fixpoint records (a : args) (w : world) (cnts : list Z) : list step_entry :=
  match cnts with
  | [] => []
  | cnt :: rest =>
      match agent_step_call a w cnt with
      | Raise _ => []
      | Return (ag, r) =>
          match step_record ag r cnt with
          | Raise _ => []
          | Return e => e :: (if done r then [] else records a w rest)
          end
      end
  end.

(** The flags a stop leaves: [is_done] and [error_code]. *)
Definition done_flag (how : stop) : bool :=
  match how with
  | Completed => true
  | _ => false
  end.

Definition code_of (how : stop) : Z :=
  match how with
  | StepError => 2
  | LogError => 1
  | Completed | MaxRounds => 0
  end.

(** The exit status lines 177-188 select after a stop in round [cnt]. *)
Definition exit_of (a : args) (cnt : Z) (how : stop) : Z :=
  match how with
  | StepError => 2
  | Completed => 0
  | MaxRounds | LogError => if bool_decide (cnt = max_rounds a) then 4 else 1
  end.

Definition log_path (a : args) : string := output_dir a +:+ "/log.json".

(** From [s] to [s'] no file was opened at the path of [log.json]. *)
Definition no_log_write (a : args) (s s' : state) : Prop :=
  exists paths,
    written s' = paths ++ written s
    /\ Forall (fun p => p <> log_path a) paths.


(** Round [cnt] goes through: the agent answers, the entry is logged,
    and the agent does not declare completion. *)
Definition clean (a : args) (w : world) (cnt : Z) : Prop :=
  exists ag r e,
    agent_step_call a w cnt = Return (ag, r)
    /\ step_record ag r cnt = Return e
    /\ done r = false.


(** The paths the driver writes to besides [log.json]. *)
Definition error_path (a : args) : string := output_dir a +:+ "/error.json".

Definition png_path (a : args) (k : Z) : string :=
  output_dir a +:+ "/" +:+ str_of_Z k +:+ ".png".

(** The action types whose branch of lines 109-135 reads
    [response.data['actual_action_coordinates']], and those among them
    that log the coordinates themselves. *)
Definition gesture_types : list string :=
  ["click"; "double_tap"; "long_press"; "scroll"; "swipe"].

Definition coordinate_types : list string :=
  ["click"; "double_tap"; "long_press"].

(** The tokens the raw response under [key] stands for: those of its
    usage, none when it is [None]. *)
Definition usage_tokens (sel : Z * Z -> Z) (d : gmap string value)
    (key : string) : Z :=
  match d !! key with
  | Some (VRaw _ (Some u)) => sel u
  | _ => 0
  end.

(** The message the loop over [cnts] hands to [print_and_log_error], if
    it stops on an exception. *)
Fixpoint error_message (a : args) (w : world) (cnts : list Z) : option string :=
  match cnts with
  | [] => None
  | cnt :: rest =>
      match agent_step_call a w cnt with
      | Raise x => Some ("Error taking step: " +:+ exn_msg x)
      | Return (ag, r) =>
          match step_record ag r cnt with
          | Raise x => Some ("Error handling log: " +:+ exn_msg x)
          | Return _ => if done r then None else error_message a w rest
          end
      end
  end.

(** The loop stopped without an exception. *)
Definition regular (how : stop) : bool :=
  match how with
  | Completed | MaxRounds => true
  | StepError | LogError => false
  end.


(** Several errors in a row, as [print_and_log_error] would log them. *)
Fixpoint log_errors (a : args) (messages : list string) : M state unit :=
  match messages with
  | [] => ret tt
  | m :: rest => (print_and_log_error a m ;;; log_errors a rest)%py
  end.

(** ** Sample runs *)

Definition sample_action (tag : string) : json_action :=
  {| action_type := Some tag; text := None; app_name := None;
     direction := None |}.

(** The data an M3A step leaves behind for the grounded action [act]. *)
Definition sample_data (act : value) : gmap string value :=
  <["benchmark_screenshot" := VArray [0; 0; 0]]>
  (<["converted_action" := act]>
  (<["actual_action_coordinates" := VCoords [10; 20; 30; 40]]>
  (<["action_raw_response" := VRaw HttpResponse (Some (100, 7))]>
  (<["summary_raw_response" := VNone]>
  (<["action_output" := VStr "Action: ..."]>
  (<["summary" := VStr "Summary: ..."]> ∅)))))).

Definition ticking : nat -> Q := fun k => inject_Z (Z.of_nat k).

(** The agent clicks in every round and declares the task complete in
    round [k]. *)
Definition finishes_at (k : Z) : world :=
  {| agent_step := fun cnt =>
       if cnt =? k
       then Return {| data := sample_data (VAction (sample_action "status"));
                      done := true |}
       else Return {| data := sample_data (VAction (sample_action "click"));
                      done := false |};
     clock := ticking |}.

(** The agent clicks in every round and never declares completion. *)
Definition never_done : world :=
  {| agent_step := fun _ =>
       Return {| data := sample_data (VAction (sample_action "click"));
                 done := false |};
     clock := ticking |}.

(** As [never_done], but the data of round [k] lacks the screenshot. *)
Definition no_screenshot_at (k : Z) : world :=
  {| agent_step := fun cnt =>
       if cnt =? k
       then Return {| data := ∅; done := false |}
       else Return {| data := sample_data (VAction (sample_action "click"));
                      done := false |};
     clock := ticking |}.

(** As [never_done], but [agent.step] raises in round [k]. *)
Definition step_raises_at (k : Z) : world :=
  {| agent_step := fun cnt =>
       if cnt =? k
       then Raise (Exn OtherException "device offline")
       else Return {| data := sample_data (VAction (sample_action "click"));
                      done := false |};
     clock := ticking |}.

(** No [--agent] on the command line. *)
Definition no_agent_args (rounds : Z) : args :=
  {| task := "Open the clock app"; output_dir := "out";
     max_rounds := rounds; agent := None |}.

(** As [never_done], but the data of round [k] lacks the log key
    [summary]. *)
Definition no_summary_at (k : Z) : world :=
  {| agent_step := fun cnt =>
       if cnt =? k
       then Return {| data := delete "summary"
                                (sample_data (VAction (sample_action "click")));
                      done := false |}
       else Return {| data := sample_data (VAction (sample_action "click"));
                      done := false |};
     clock := ticking |}.

Definition sample_args (rounds : Z) : args :=
  {| task := "Open the clock app"; output_dir := "out";
     max_rounds := rounds; agent := Some M3A |}.


End benchmark_run.

(** * Properties of [infer.py] *)
Module infer_spec.
Import infer.

Lemma gtb_pos (c : Z) : 0 < c -> (c >? 0) = true.
Proof. intros H. apply Z.gtb_lt. exact H. Qed.

Lemma gtb_nonpos (c : Z) : c <= 0 -> (c >? 0) = false.
Proof. intros H. destruct (Z.gtb_spec c 0); [lia | reflexivity]. Qed.


(** C6.  Both constructors, given their credential, return an instance
    for every integer [max_retry], and the budget of that instance is 3
    when [max_retry <= 0], 5 when [max_retry > 5], and [max_retry]
    otherwise. *)
Theorem constructors_clamp_max_retry
    (environ : gmap string string) (model_name : string)
    (max_retry : Z) (temperature t0 : Q) :
  is_Some (environ !! "OPENAI_API_KEY") ->
  is_Some (environ !! "GCP_API_KEY") ->
  exists (gpt : Gpt4Wrapper.t) (gemini : GeminiGcpWrapper.state),
    Gpt4Wrapper.init environ model_name max_retry temperature = Return gpt
    /\ GeminiGcpWrapper.init environ max_retry t0 = Return gemini
    /\ Gpt4Wrapper.max_retry gpt = GeminiGcpWrapper.max_retry gemini
    /\ (max_retry <= 0 -> Gpt4Wrapper.max_retry gpt = 3)
    /\ (5 < max_retry -> Gpt4Wrapper.max_retry gpt = 5)
    /\ (0 < max_retry <= 5 -> Gpt4Wrapper.max_retry gpt = max_retry).
Proof.
  intros [key Hkey] [gcp Hgcp].
  unfold Gpt4Wrapper.init, GeminiGcpWrapper.init.
  rewrite Hkey, Hgcp.
  do 2 eexists. split; [reflexivity|]. split; [reflexivity|].
  cbn [Gpt4Wrapper.max_retry GeminiGcpWrapper.max_retry].
  unfold effective_max_retry.
  destruct (Z.leb_spec max_retry 0); repeat split; lia.
Qed.

Lemma constructors_clamp_max_retry_witness :
  exists (gpt : Gpt4Wrapper.t) (gemini : GeminiGcpWrapper.state),
    Gpt4Wrapper.init
      (<["OPENAI_API_KEY" := "sk"]> (<["GCP_API_KEY" := "g"]> ∅))
      "gpt-4o" 9 0%Q = Return gpt
    /\ GeminiGcpWrapper.init
         (<["OPENAI_API_KEY" := "sk"]> (<["GCP_API_KEY" := "g"]> ∅))
         9 0%Q = Return gemini
    /\ Gpt4Wrapper.max_retry gpt = GeminiGcpWrapper.max_retry gemini
    /\ (9 <= 0 -> Gpt4Wrapper.max_retry gpt = 3)
    /\ (5 < 9 -> Gpt4Wrapper.max_retry gpt = 5)
    /\ (0 < 9 <= 5 -> Gpt4Wrapper.max_retry gpt = 9).
Proof.
  apply (constructors_clamp_max_retry
           (<["OPENAI_API_KEY" := "sk"]> (<["GCP_API_KEY" := "g"]> ∅))
           "gpt-4o" 9 0%Q 0%Q).
  - exists "sk". vm_compute. reflexivity.
  - exists "g". vm_compute. reflexivity.
Defined.

(** ** [Gpt4Wrapper.predict_mm] *)
Section Gpt4.
Import Gpt4Wrapper.

(** One iteration of the loop, by the verdict on the remote call. *)
Lemma iteration_classify (b : backend) (counter wait_seconds : Z) (s : state) :
  iteration b counter wait_seconds s =
  match classify (b (posts s)) with
  | Answer content =>
      (Done (content, match b (posts s) with
                      | Return resp => Some resp
                      | Raise _ => None
                      end),
       {| posts := S (posts s); trace := Post :: trace s |})
  | Excepted =>
      (Again (counter - 1) (wait_seconds * 2), post_then_sleep wait_seconds s)
  | Reported =>
      (Again counter (wait_seconds * 2), post_then_sleep wait_seconds s)
  end.
Proof.
  unfold iteration, attempt, bind, requests_post, classify.
  destruct (b (posts s)) as [[[] [[[[c|]|] [m|]]|]]|e]; reflexivity.
Qed.

Lemma sleeps_post_then_sleep (d : Z) (s : state) :
  sleeps (trace (post_then_sleep d s)) = sleeps (trace s) ++ [d].
Proof.
  unfold sleeps, post_then_sleep. cbn [trace].
  rewrite !reverse_cons, !omap_app. cbn. rewrite app_nil_r. reflexivity.
Qed.

(** A backend whose every call fails through the [except] clause: the
    loop makes exactly [counter] calls, sleeps [wait], [2 wait], ... after
    each of them, and returns the sentinel. *)
Lemma while_loop_all_excepted (b : backend) :
  (forall k, classify (b k) = Excepted) ->
  forall (n fuel : nat) (wait_seconds : Z) (s : state),
    (n <= fuel)%nat ->
    exists s',
      while_loop fuel b (Z.of_nat n) wait_seconds s
        = (Some (ERROR_CALLING_LLM, None), s')
      /\ posts s' = (posts s + n)%nat
      /\ sleeps (trace s') = sleeps (trace s) ++ backoff n wait_seconds.
Proof.
  intros Hb. induction n as [|n IH]; intros fuel wait_seconds s Hfuel.
  - exists s. destruct fuel; cbn; rewrite ?app_nil_r; repeat split; lia || reflexivity.
  - destruct fuel as [|fuel]; [lia|].
    cbn [while_loop].
    rewrite gtb_pos by lia.
    rewrite iteration_classify, Hb.
    replace (Z.of_nat (S n) - 1) with (Z.of_nat n) by lia.
    destruct (IH fuel (wait_seconds * 2) (post_then_sleep wait_seconds s))
      as (s' & Hrun & Hposts & Hsleeps); [lia|].
    exists s'. split; [exact Hrun|]. split.
    + rewrite Hposts. cbn. lia.
    + rewrite Hsleeps, sleeps_post_then_sleep, <- app_assoc. reflexivity.
Qed.

(** A backend whose every call fails inside the [try] block (a reply
    that is not a completion and carries an error message): the counter
    is never decremented and the loop does not end. *)
Lemma while_loop_all_reported (b : backend) :
  (forall k, classify (b k) = Reported) ->
  forall (fuel : nat) (counter wait_seconds : Z) (s : state),
    0 < counter ->
    fst (while_loop fuel b counter wait_seconds s) = None
    /\ posts (snd (while_loop fuel b counter wait_seconds s))
       = (posts s + fuel)%nat
    /\ sleeps (trace (snd (while_loop fuel b counter wait_seconds s)))
       = sleeps (trace s) ++ backoff fuel wait_seconds.
Proof.
  intros Hb. induction fuel as [|fuel IH]; intros counter wait_seconds s Hc.
  - cbn. rewrite gtb_pos by lia. cbn.
    rewrite app_nil_r. repeat split; lia || reflexivity.
  - cbn [while_loop]. rewrite gtb_pos by lia.
    rewrite iteration_classify, Hb.
    destruct (IH counter (wait_seconds * 2) (post_then_sleep wait_seconds s) Hc)
      as (Hrun & Hposts & Hsleeps).
    split; [exact Hrun|]. split.
    + rewrite Hposts. cbn. lia.
    + rewrite Hsleeps, sleeps_post_then_sleep, <- app_assoc. reflexivity.
Qed.

End Gpt4.

Section Gpt4Calls.
Import Gpt4Wrapper.

(** X2.  When every attempt fails through the [except] clause (a raised
    exception, a body that is not JSON, a reply without error message),
    [predict_mm] makes exactly [max_retry] remote calls, sleeps 20, 40,
    80, ... seconds after them, and returns the sentinel. *)
Lemma predict_mm_all_excepted (self : t) (b : backend) (fuel : nat) :
  (forall k, classify (b k) = Excepted) ->
  0 <= max_retry self ->
  (Z.to_nat (max_retry self) <= fuel)%nat ->
  exists s',
    predict_mm fuel self b initial = (Some (ERROR_CALLING_LLM, None), s')
    /\ Z.of_nat (posts s') = max_retry self
    /\ sleeps (trace s')
       = backoff (Z.to_nat (max_retry self)) RETRY_WAITING_SECONDS.
Proof.
  intros Hb Hpos Hfuel. unfold predict_mm.
  destruct (while_loop_all_excepted b Hb (Z.to_nat (max_retry self)) fuel
              RETRY_WAITING_SECONDS initial Hfuel) as (s' & Hrun & Hposts & Hsl).
  rewrite Z2Nat.id in Hrun by exact Hpos.
  exists s'. split; [exact Hrun|]. split.
  - rewrite Hposts. cbn. lia.
  - rewrite Hsl. reflexivity.
Qed.

(** C2, on the code.  The instance [sample] has a retry budget of 3, and
    each attempt on the backend [rate_limited] fails with a non-2xx
    reply; yet [predict_mm] has not returned after any number [fuel] of
    iterations: it has then made [fuel] remote calls, [fuel] sleeps of 20,
    40, 80, ... seconds, and is still in its loop. *)
Theorem predict_mm_rate_limited_never_returns (fuel : nat) :
  max_retry sample = 3
  /\ fst (predict_mm fuel sample rate_limited initial) = None
  /\ posts (snd (predict_mm fuel sample rate_limited initial)) = fuel
  /\ sleeps (trace (snd (predict_mm fuel sample rate_limited initial)))
     = backoff fuel RETRY_WAITING_SECONDS.
Proof.
  split; [reflexivity|].
  unfold predict_mm.
  apply (while_loop_all_reported rate_limited (fun _ => eq_refl) fuel
           (max_retry sample) RETRY_WAITING_SECONDS initial).
  reflexivity.
Qed.

(** The same instance on a backend whose calls raise: 3 calls, sleeps of
    20, 40 and 80 seconds, then the sentinel. *)
Example predict_mm_unreachable :
  exists s',
    predict_mm 3 sample unreachable initial
      = (Some (ERROR_CALLING_LLM, None), s')
    /\ posts s' = 3%nat
    /\ sleeps (trace s') = [20; 40; 80].
Proof. eexists. repeat split. Qed.

End Gpt4Calls.

(** ** [Gpt4Wrapper.predict_mm]: the first answer *)
Section Gpt4Answer.
Import Gpt4Wrapper.

Lemma classify_answer (b : backend) (k : nat) (content : string) :
  classify (b k) = Answer content ->
  exists resp, b k = Return resp.
Proof.
  unfold classify. destruct (b k) as [resp|e]; [eauto | discriminate].
Qed.

Lemma sleeps_post (tr : list event) : sleeps (Post :: tr) = sleeps tr.
Proof.
  unfold sleeps. rewrite reverse_cons, omap_app. cbn. apply app_nil_r.
Qed.

Lemma while_loop_answer (b : backend) (content : string) :
  forall (k fuel : nat) (counter wait_seconds : Z) (s : state),
    (forall i, (i < k)%nat ->
               forall c, classify (b (posts s + i)%nat) <> Answer c) ->
    classify (b (posts s + k)%nat) = Answer content ->
    Z.of_nat (excepted_among b (posts s) k) < counter ->
    (k < fuel)%nat ->
    exists resp s',
      b (posts s + k)%nat = Return resp
      /\ while_loop fuel b counter wait_seconds s
         = (Some (content, Some resp), s')
      /\ posts s' = (posts s + S k)%nat
      /\ sleeps (trace s') = sleeps (trace s) ++ backoff k wait_seconds.
Proof.
  induction k as [|k IH]; intros fuel counter wait_seconds s Hfail Hans Hbudget Hfuel;
    (destruct fuel as [|fuel]; [lia|]); cbn [while_loop];
    rewrite gtb_pos by lia; rewrite iteration_classify.
  - rewrite Nat.add_0_r in Hans.
    destruct (classify_answer b _ content Hans) as [resp Hresp].
    rewrite Hans, Hresp. exists resp. eexists.
    rewrite Nat.add_0_r. split; [exact Hresp|]. split; [reflexivity|].
    cbn [posts trace backoff]. rewrite sleeps_post, app_nil_r.
    split; [lia | reflexivity].
  - pose proof (Hfail 0%nat ltac:(lia)) as Hfirst.
    rewrite Nat.add_0_r in Hfirst. cbn [excepted_among] in Hbudget.
    assert (Hnext : forall counter',
               Z.of_nat (excepted_among b (S (posts s)) k) < counter' ->
               exists resp s',
                 b (posts s + S k)%nat = Return resp
                 /\ while_loop fuel b counter' (wait_seconds * 2)
                      (post_then_sleep wait_seconds s)
                    = (Some (content, Some resp), s')
                 /\ posts s' = (posts s + S (S k))%nat
                 /\ sleeps (trace s')
                    = sleeps (trace s) ++ backoff (S k) wait_seconds).
    { intros counter' Hc.
      destruct (IH fuel counter' (wait_seconds * 2)
                  (post_then_sleep wait_seconds s))
        as (resp & s' & Hresp & Hrun & Hposts & Hsl).
      - intros i Hi c. cbn [posts post_then_sleep].
        replace (S (posts s) + i)%nat with (posts s + S i)%nat by lia.
        apply Hfail. lia.
      - cbn [posts post_then_sleep].
        replace (S (posts s) + k)%nat with (posts s + S k)%nat by lia.
        exact Hans.
      - exact Hc.
      - lia.
      - exists resp, s'. cbn [posts post_then_sleep] in Hresp, Hposts.
        replace (S (posts s) + k)%nat with (posts s + S k)%nat in Hresp by lia.
        split; [exact Hresp|]. split; [exact Hrun|]. split; [lia|].
        rewrite Hsl, sleeps_post_then_sleep, <- app_assoc. reflexivity. }
    destruct (classify (b (posts s))) as [c| |] eqn:Hc.
    + exfalso. exact (Hfirst c eq_refl).
    + apply Hnext. lia.
    + apply Hnext. lia.
Qed.

(** X1.  If call [k + 1] is the first that brings a well-formed answer
    and fewer than [max_retry] of the calls before it failed through
    the [except] clause, [predict_mm] returns the content and the
    response of that call after exactly [k + 1] calls and sleeps of 20,
    40, ... seconds after the [k] failures. *)
Theorem predict_mm_first_answer (self : t) (b : backend) (k fuel : nat)
    (content : string) :
  (forall i, (i < k)%nat -> forall c, classify (b i) <> Answer c) ->
  classify (b k) = Answer content ->
  Z.of_nat (excepted_among b 0 k) < max_retry self ->
  (k < fuel)%nat ->
  exists resp s',
    b k = Return resp
    /\ predict_mm fuel self b initial = (Some (content, Some resp), s')
    /\ posts s' = S k
    /\ sleeps (trace s') = backoff k RETRY_WAITING_SECONDS.
Proof.
  intros Hfail Hans Hbudget Hfuel. unfold predict_mm.
  apply (while_loop_answer b content k fuel (max_retry self)
           RETRY_WAITING_SECONDS initial); assumption.
Qed.

Lemma predict_mm_first_answer_witness :
  exists resp s',
    third_time_lucky 2%nat = Return resp
    /\ predict_mm 3 sample third_time_lucky initial
       = (Some ("CLICK 3", Some resp), s')
    /\ posts s' = 3%nat
    /\ sleeps (trace s') = [20; 40].
Proof.
  apply (predict_mm_first_answer sample third_time_lucky 2 3 "CLICK 3").
  - intros i Hi c. destruct i as [|[|i]]; [discriminate | discriminate | lia].
  - reflexivity.
  - vm_compute. reflexivity.
  - lia.
Defined.

Lemma predict_mm_all_excepted_witness :
  exists s',
    predict_mm 3 sample unreachable initial
    = (Some (ERROR_CALLING_LLM, None), s')
    /\ Z.of_nat (posts s') = 3
    /\ sleeps (trace s') = [20; 40; 80].
Proof.
  apply (predict_mm_all_excepted sample unreachable 3).
  - intros k. reflexivity.
  - vm_compute. discriminate.
  - vm_compute. lia.
Defined.

End Gpt4Answer.

(** ** [GeminiGcpWrapper.predict_mm]: pacing *)
Section Gemini.
Import GeminiGcpWrapper.

Variable w : world.
Hypothesis lag_nonneg : forall k, (0 <= lag w k)%Q.












End Gemini.






(** ** [GeminiGcpWrapper.predict_mm]: attempts and backoff *)
Section GeminiAttempts.
Import GeminiGcpWrapper.

Variable w : world.

(** One pass through the [try] block issues exactly one request. *)
Lemma attempt_spec (s : state) :
  exists t s',
    attempt w s
    = (match generate_content w (length (requests s)) with
       | Return o => match text o with
                     | Some txt => Return (txt, Some o)
                     | None => Raise failed
                     end
       | Raise e => Raise e
       end, s')
    /\ requests s' = t :: requests s
    /\ max_retry s' = max_retry s
    /\ ((forall k, (0 <= lag w k)%Q) -> (now s <= t)%Q /\ (t <= now s')%Q).
Proof.
  unfold attempt, bind, time_time, get, set_time_of_last_request,
    llm_generate_content, time_sleep, elapse, modify, ret, raise.
  destruct (Qlt_le_dec (now s - time_of_last_request s) TIME_BETWEEN_REQUESTS)
    as [Hlt|Hle]; cbn;
    destruct (generate_content w (length (requests s))) as [[[txt|]]|e]; cbn;
    do 2 eexists; (split; [reflexivity|]); cbn;
    (split; [reflexivity|]); (split; [reflexivity|]);
    intros Hlag;
    pose proof (Hlag (ticks s)) as H0; pose proof (Hlag (S (ticks s))) as H1;
    unfold TIME_BETWEEN_REQUESTS in *; split; lra.
Qed.

Lemma time_sleep_spec (d : Q) (s : state) :
  requests (snd (time_sleep w d s)) = requests s
  /\ max_retry (snd (time_sleep w d s)) = max_retry s
  /\ ((forall k, (0 <= lag w k)%Q) ->
      (now s + d <= now (snd (time_sleep w d s)))%Q).
Proof.
  cbn. repeat split. intros Hlag. pose proof (Hlag (ticks s)). lra.
Qed.

Lemma while_loop_step (fuel : nat) (counter : Z) (retry_delay : Q) (s : state) :
  while_loop (S fuel) w counter retry_delay s =
  if counter >? 0 then
    match attempt w s with
    | (Return r, s') => (Some r, s')
    | (Raise _, s') =>
        if counter - 1 >? 0 then
          while_loop fuel w (counter - 1) (retry_delay * 2)%Q
            (snd (time_sleep w retry_delay s'))
        else while_loop fuel w (counter - 1) retry_delay s'
    end
  else (Some (ERROR_CALLING_LLM, None), s).
Proof. reflexivity. Qed.

(** The state a failed attempt hands to the next iteration. *)
Lemma after_failure (counter : Z) (retry_delay : Q) (s1 : state) (P : Q -> state -> Prop) :
  (forall d s2, requests s2 = requests s1 -> max_retry s2 = max_retry s1 ->
                P d s2) ->
  if counter - 1 >? 0
  then P (retry_delay * 2)%Q (snd (time_sleep w retry_delay s1))
  else P retry_delay s1.
Proof.
  intros H. destruct (counter - 1 >? 0); apply H; reflexivity.
Qed.



(** Every attempt failing: the sentinel, after exactly [counter]
    requests. *)
Lemma while_loop_all_fail :
  forall (n fuel : nat) (retry_delay : Q) (s : state),
    (n <= fuel)%nat ->
    (forall i, (i < n)%nat ->
               fails (generate_content w (length (requests s) + i))) ->
    fst (while_loop fuel w (Z.of_nat n) retry_delay s)
    = Some (ERROR_CALLING_LLM, None)
    /\ length (requests (snd (while_loop fuel w (Z.of_nat n) retry_delay s)))
       = (length (requests s) + n)%nat.
Proof.
  induction n as [|n IH]; intros fuel retry_delay s Hfuel Hfail.
  - change (Z.of_nat 0) with 0.
    destruct fuel; cbn [while_loop]; rewrite gtb_nonpos by lia;
      cbn [fst snd]; split; [reflexivity | lia | reflexivity | lia].
  - destruct fuel as [|fuel]; [lia|]. rewrite while_loop_step.
    rewrite gtb_pos by lia.
    destruct (attempt_spec s) as (t & s1 & Ha & Hreq & Hmax & _).
    rewrite Ha.
    pose proof (Hfail 0%nat ltac:(lia)) as H0. rewrite Nat.add_0_r in H0.
    replace (Z.of_nat (S n) - 1) with (Z.of_nat n) by lia.
    assert (Hnext : forall d s2,
               requests s2 = requests s1 -> max_retry s2 = max_retry s1 ->
               fst (while_loop fuel w (Z.of_nat n) d s2)
               = Some (ERROR_CALLING_LLM, None)
               /\ length (requests (snd (while_loop fuel w (Z.of_nat n) d s2)))
                  = (length (requests s) + S n)%nat).
    { intros d s2 Hr2 _. destruct (IH fuel d s2) as [IHres IHlen].
      - lia.
      - intros i Hi. rewrite Hr2, Hreq. cbn [length].
        replace (S (length (requests s)) + i)%nat
          with (length (requests s) + S i)%nat by lia.
        apply Hfail. lia.
      - split; [exact IHres|]. rewrite IHlen, Hr2, Hreq. cbn [length]. lia. }
    pose proof (after_failure (Z.of_nat (S n)) retry_delay s1
                  (fun d s2 => _ /\ _) Hnext) as Hstep.
    replace (Z.of_nat (S n) - 1) with (Z.of_nat n) in Hstep by lia.
    destruct (generate_content w (length (requests s))) as [[[txt|]]|e];
      cbn [fails text] in H0; [discriminate | |]; cbn [text];
      destruct (Z.of_nat n >? 0); exact Hstep.
Qed.

(** The first text after [k] failures, [k] below the budget: it is
    returned with its output after exactly [k + 1] requests. *)
Lemma while_loop_first_text (txt : string) (o : output) :
  forall (k fuel : nat) (counter : Z) (retry_delay : Q) (s : state),
    (k < fuel)%nat ->
    Z.of_nat k < counter ->
    (forall i, (i < k)%nat ->
               fails (generate_content w (length (requests s) + i))) ->
    generate_content w (length (requests s) + k) = Return o ->
    text o = Some txt ->
    fst (while_loop fuel w counter retry_delay s) = Some (txt, Some o)
    /\ length (requests (snd (while_loop fuel w counter retry_delay s)))
       = (length (requests s) + S k)%nat.
Proof.
  induction k as [|k IH]; intros fuel counter retry_delay s Hfuel Hbudget Hfail Hgen Htxt;
    (destruct fuel as [|fuel]; [lia|]); rewrite while_loop_step;
    rewrite gtb_pos by lia;
    destruct (attempt_spec s) as (t & s1 & Ha & Hreq & Hmax & _);
    rewrite Ha.
  - rewrite Nat.add_0_r in Hgen. rewrite Hgen, Htxt. cbn [fst snd].
    split; [reflexivity|]. rewrite Hreq. cbn [length]. lia.
  - pose proof (Hfail 0%nat ltac:(lia)) as H0. rewrite Nat.add_0_r in H0.
    assert (Hnext : forall d s2,
               requests s2 = requests s1 -> max_retry s2 = max_retry s1 ->
               fst (while_loop fuel w (counter - 1) d s2) = Some (txt, Some o)
               /\ length (requests (snd (while_loop fuel w (counter - 1) d s2)))
                  = (length (requests s) + S (S k))%nat).
    { intros d s2 H2 _.
      destruct (IH fuel (counter - 1) d s2) as [IHres IHlen].
      - lia.
      - lia.
      - intros i Hi. rewrite H2, Hreq. cbn [length].
        replace (S (length (requests s)) + i)%nat
          with (length (requests s) + S i)%nat by lia.
        apply Hfail. lia.
      - rewrite H2, Hreq. cbn [length].
        replace (S (length (requests s)) + k)%nat
          with (length (requests s) + S k)%nat by lia.
        exact Hgen.
      - exact Htxt.
      - split; [exact IHres|]. rewrite IHlen, H2, Hreq. cbn [length]. lia. }
    pose proof (after_failure counter retry_delay s1
                  (fun d s2 => _ /\ _) Hnext) as Hstep.
    destruct (generate_content w (length (requests s))) as [[[txt0|]]|e];
      cbn [fails text] in H0; [discriminate | |]; cbn [text];
      destruct (counter - 1 >? 0); exact Hstep.
Qed.

End GeminiAttempts.


(** ** [GeminiGcpWrapper.predict_mm]: what a call does *)
Section GeminiCalls.
Import GeminiGcpWrapper.

Variable w : world.

Lemma while_loop_over (fuel : nat) (counter : Z) (retry_delay : Q) (s : state) :
  counter <= 0 ->
  while_loop fuel w counter retry_delay s = (Some (ERROR_CALLING_LLM, None), s).
Proof.
  intros H. destruct fuel; cbn [while_loop]; rewrite gtb_nonpos by lia;
    reflexivity.
Qed.

Lemma head_backed_off (t d : Q) (rest : list Q) :
  (forall r, head rest = Some r -> (t + d <= r)%Q) ->
  backed_off (d * 2)%Q rest ->
  backed_off d (t :: rest).
Proof.
  destruct rest as [|r rest]; cbn; [trivial|].
  intros Hhead Hrest. split; [apply Hhead; reflexivity | exact Hrest].
Qed.

(** The requests of the loop back off from [retry_delay] on. *)
Lemma while_loop_backs_off :
  (forall k, (0 <= lag w k)%Q) ->
  forall (fuel : nat) (counter : Z) (retry_delay : Q) (s : state),
    exists times,
      requests (snd (while_loop fuel w counter retry_delay s))
      = reverse times ++ requests s
      /\ backed_off retry_delay times
      /\ (forall r, head times = Some r -> (now s <= r)%Q).
Proof.
  intros Hlag. induction fuel as [|fuel IH]; intros counter retry_delay s.
  - exists []. cbn [while_loop]. destruct (counter >? 0); cbn;
      repeat split; discriminate.
  - rewrite while_loop_step.
    destruct (counter >? 0);
      [|exists []; cbn; repeat split; discriminate].
    destruct (attempt_spec w s) as (t & s1 & Ha & Hreq & Hmax & Htime).
    destruct (Htime Hlag) as [Ht Ht1].
    rewrite Ha.
    assert (Hone : exists times,
               requests s1 = reverse times ++ requests s
               /\ backed_off retry_delay times
               /\ (forall r, head times = Some r -> (now s <= r)%Q)).
    { exists [t]. rewrite Hreq. cbn. repeat split.
      intros r [= <-]. exact Ht. }
    destruct (generate_content w (length (requests s))) as [[[txt|]]|e];
      cbn [text]; [exact Hone | |].
    all: destruct (Z.gtb_spec (counter - 1) 0) as [Hpos|Hneg];
      [ destruct (time_sleep_spec w retry_delay s1) as (Hr2 & _ & Hnow2);
        specialize (Hnow2 Hlag);
        destruct (IH (counter - 1) (retry_delay * 2)%Q
                    (snd (time_sleep w retry_delay s1)))
          as (times & Hreqs & Hback & Hhead);
        exists (t :: times); rewrite Hreqs, Hr2, Hreq, reverse_cons, <- app_assoc;
        split; [reflexivity|]; split;
        [ apply head_backed_off; [|exact Hback];
          intros r Hr; specialize (Hhead r Hr); lra
        | intros r [= <-]; exact Ht ]
      | rewrite while_loop_over by exact Hneg; exact Hone ].
Qed.



(** X4.  What a call returns.  If the first [k] remote calls fail, with
    [k] below [max_retry], and the next one brings a text, [predict_mm]
    returns that text with its output after exactly [k + 1] requests; if
    all [max_retry] calls fail it returns the sentinel after exactly
    [max_retry] requests. *)
Theorem predict_mm_result (s : state) :
  (forall (k : nat) (o : output) (txt : string),
      Z.of_nat k < max_retry s ->
      (forall i, (i < k)%nat ->
                 fails (generate_content w (length (requests s) + i))) ->
      generate_content w (length (requests s) + k) = Return o ->
      text o = Some txt ->
      fst (predict_mm w s) = Some (txt, Some o)
      /\ length (requests (snd (predict_mm w s)))
         = (length (requests s) + S k)%nat)
  /\ (0 <= max_retry s ->
      (forall i, (i < Z.to_nat (max_retry s))%nat ->
                 fails (generate_content w (length (requests s) + i))) ->
      fst (predict_mm w s) = Some (ERROR_CALLING_LLM, None)
      /\ length (requests (snd (predict_mm w s)))
         = (length (requests s) + Z.to_nat (max_retry s))%nat).
Proof.
  unfold predict_mm. split.
  - intros k o txt Hk Hfail Hgen Htxt.
    apply (while_loop_first_text w txt o k); try assumption. lia.
  - intros Hpos Hfail.
    pose proof (while_loop_all_fail w (Z.to_nat (max_retry s))
                  (Z.to_nat (max_retry s)) TIME_BETWEEN_REQUESTS s
                  ltac:(lia) Hfail) as H.
    rewrite Z2Nat.id in H by exact Hpos. exact H.
Qed.

(** X5.  Within one call the requests back off: on a clock that does
    not run backwards, the second request of a call comes at least 15
    seconds after the first, the third at least 30 seconds after the
    second, and so on, doubling. *)
Theorem predict_mm_backs_off (s : state) :
  (forall k, (0 <= lag w k)%Q) ->
  exists times,
    request_times (snd (predict_mm w s)) = request_times s ++ times
    /\ backed_off 15 times.
Proof.
  intros Hlag. unfold predict_mm, request_times.
  destruct (while_loop_backs_off Hlag (Z.to_nat (max_retry s)) (max_retry s)
              TIME_BETWEEN_REQUESTS s) as (times & Hreq & Hback & _).
  exists times. rewrite Hreq, reverse_app, reverse_involutive.
  split; [reflexivity | exact Hback].
Qed.

End GeminiCalls.


Lemma predict_mm_result_witness :
  (fst (GeminiGcpWrapper.predict_mm (GeminiGcpWrapper.answers_after 1)
          GeminiGcpWrapper.sample)
   = Some ("CLICK 3", Some {| GeminiGcpWrapper.text := Some "CLICK 3" |})
   /\ length (GeminiGcpWrapper.requests
                (snd (GeminiGcpWrapper.predict_mm
                        (GeminiGcpWrapper.answers_after 1)
                        GeminiGcpWrapper.sample))) = 2%nat)
  /\ (fst (GeminiGcpWrapper.predict_mm GeminiGcpWrapper.always_failing
             GeminiGcpWrapper.sample)
      = Some (ERROR_CALLING_LLM, None)
      /\ length (GeminiGcpWrapper.requests
                   (snd (GeminiGcpWrapper.predict_mm
                           GeminiGcpWrapper.always_failing
                           GeminiGcpWrapper.sample))) = 2%nat).
Proof.
  split.
  - apply (proj1 (predict_mm_result (GeminiGcpWrapper.answers_after 1)
                    GeminiGcpWrapper.sample) 1%nat
             {| GeminiGcpWrapper.text := Some "CLICK 3" |} "CLICK 3").
    + cbn. lia.
    + intros i Hi. assert (i = 0%nat) as -> by lia. exact I.
    + reflexivity.
    + reflexivity.
  - apply (proj2 (predict_mm_result GeminiGcpWrapper.always_failing
                    GeminiGcpWrapper.sample)).
    + cbn. lia.
    + intros i Hi. exact I.
Defined.

Lemma predict_mm_backs_off_witness :
  exists times,
    GeminiGcpWrapper.request_times
      (snd (GeminiGcpWrapper.predict_mm GeminiGcpWrapper.always_failing
              GeminiGcpWrapper.sample))
    = GeminiGcpWrapper.request_times GeminiGcpWrapper.sample ++ times
    /\ GeminiGcpWrapper.backed_off 15 times.
Proof.
  apply (predict_mm_backs_off GeminiGcpWrapper.always_failing
           GeminiGcpWrapper.sample).
  intros k. vm_compute. discriminate.
Defined.

End infer_spec.

(** * Properties of [ui_tree_wrapper.py] *)
Module ui_tree_wrapper_spec.
Import ui_tree_wrapper.

Section Capture.
Context {forest : Type}.
Implicit Types (d : device forest) (s : state) (f : forest) (e : exn).

Lemma moved_refl s : moved s s 0 0 0.
Proof. unfold moved. lia. Qed.

Lemma moved_trans s1 s2 s3 (a b c a' b' c' : nat) :
  moved s1 s2 a b c -> moved s2 s3 a' b' c' ->
  moved s1 s3 (a + a') (b + b') (c + c').
Proof. unfold moved. lia. Qed.


Lemma moved_missed d sd s : moved s (missed d sd s) 1 0 0.
Proof. unfold moved. cbn. lia. Qed.

Lemma moved_probed d b s : moved s (probed d b s) 0 1 0.
Proof. unfold moved. destruct b; cbn; lia. Qed.

(** One pass through the body of the polling loop. *)
Lemma poll_loop_miss_step d (sd : Q) (n : nat) s :
  no_snapshot (accumulate_new_extras d (polls s)) ->
  poll_loop d (S n) sd s = poll_loop d n sd (missed d sd s).
Proof.
  unfold no_snapshot, missed. cbn [poll_loop].
  unfold bind, try_except_class, latest_forest, bind, env_accumulate_new_extras.
  destruct (accumulate_new_extras d (polls s)) as [extras|e]; intros H.
  - rewrite H. cbn. reflexivity.
  - cbn. rewrite H. cbn. reflexivity.
Qed.

Lemma poll_loop_hit_step d (sd : Q) (n : nat) s f :
  snapshot (accumulate_new_extras d (polls s)) f ->
  poll_loop d (S n) sd s
  = (Return (Some f), snd (env_accumulate_new_extras d s)).
Proof.
  intros (extras & trees & Hr & Hk & Hl). cbn [poll_loop].
  unfold bind, try_except_class, latest_forest, bind, env_accumulate_new_extras.
  rewrite Hr, Hk, Hl. reflexivity.
Qed.

Lemma poll_loop_raise_step d (sd : Q) (n : nat) s e :
  poll_raises (accumulate_new_extras d (polls s)) e ->
  poll_loop d (S n) sd s = (Raise e, snd (env_accumulate_new_extras d s)).
Proof.
  cbn [poll_loop].
  unfold bind, try_except_class, latest_forest, bind, env_accumulate_new_extras.
  intros [[Hr Hk] | (extras & Hr & Hk & ->)].
  - rewrite Hr. cbn. rewrite Hk. reflexivity.
  - rewrite Hr, Hk. reflexivity.
Qed.


Lemma poll_loop_exhausted d (sd : Q) :
  forall (n : nat) s,
    (forall i, (i < n)%nat ->
               no_snapshot (accumulate_new_extras d (polls s + i))) ->
    exists s', poll_loop d n sd s = (Return None, s') /\ moved s s' n 0 0.
Proof.
  induction n as [|n IH]; intros s Hmiss.
  - exists s. split; [reflexivity | apply moved_refl].
  - rewrite poll_loop_miss_step
      by (specialize (Hmiss 0%nat); rewrite Nat.add_0_r in Hmiss;
          apply Hmiss; lia).
    destruct (IH (missed d sd s)) as (s' & Hrun & Hmv).
    + intros i Hi. replace (polls (missed d sd s) + i)%nat
        with (polls s + S i)%nat by (cbn; lia).
      apply Hmiss. lia.
    + exists s'. split; [exact Hrun|].
      exact (moved_trans _ _ _ 1 0 0 n 0 0 (moved_missed d sd s) Hmv).
Qed.


(** [get_a11y_tree] past its two preliminary checks. *)
Lemma get_a11y_tree_polls d (env : env_obj) (max_retries : Z) (sd : Q)
    (b : bool) s :
  _has_wrapper env A11yGrpcWrapper = true ->
  check_airplane_mode d (probes s) = Return b ->
  get_a11y_tree d env max_retries sd s =
  match poll_loop d (Z.to_nat max_retries) sd (probed d b s) with
  | (Return (Some f), s') => (Return f, s')
  | (Return None, s') => (Raise (Exn RuntimeError "Could not get a11y tree."), s')
  | (Raise e, s') => (Raise e, s')
  end.
Proof.
  intros Hw Hp. unfold get_a11y_tree, probed. rewrite Hw. cbn [negb].
  unfold bind at 1. unfold adb_check_airplane_mode at 1. rewrite Hp.
  unfold bind at 1.
  destruct b; cbn; unfold bind; cbn;
    match goal with |- context [poll_loop ?d ?n ?sd ?s] =>
      destruct (poll_loop d n sd s) as [[[f|]|e] s'] end; reflexivity.
Qed.

End Capture.

Section Recovery.
Context {forest : Type}.
Implicit Types (d : device forest) (s : state) (f : forest) (e : exn).

(** No reconnect happens inside [get_a11y_tree]. *)
Lemma poll_loop_loads d (sd : Q) :
  forall (n : nat) s, loads (snd (poll_loop d n sd s)) = loads s.
Proof.
  induction n as [|n IH]; intros s; [reflexivity|].
  cbn [poll_loop].
  unfold bind, try_except_class, latest_forest, bind, env_accumulate_new_extras.
  destruct (accumulate_new_extras d (polls s)) as [extras|e]; cbn.
  - destruct (extras !! "accessibility_tree") as [trees|]; cbn.
    + destruct (last trees); reflexivity.
    + rewrite IH. reflexivity.
  - destruct (is_KeyError e); cbn; [rewrite IH|]; reflexivity.
Qed.

Lemma get_a11y_tree_loads d (env : env_obj) (max_retries : Z) (sd : Q) s :
  loads (snd (get_a11y_tree d env max_retries sd s)) = loads s.
Proof.
  unfold get_a11y_tree.
  destruct (negb (_has_wrapper env A11yGrpcWrapper)); [reflexivity|].
  unfold bind at 1. unfold adb_check_airplane_mode at 1.
  destruct (check_airplane_mode d (probes s)) as [b|e]; [|reflexivity].
  unfold bind at 1.
  destruct b; cbn; unfold bind;
    match goal with |- context [poll_loop ?d ?n ?sd ?s0] =>
      pose proof (poll_loop_loads d sd n s0) as Hl;
      destruct (poll_loop d n sd s0) as [[[f|]|e] s'] end;
    exact Hl.
Qed.

(** The handler reconnects exactly once, whatever follows. *)
Lemma reconnect_and_retry_loads d s :
  loads (snd (reconnect_and_retry d s)) = S (loads s).
Proof.
  unfold reconnect_and_retry, refresh_env, get_wrapped_env, bind, modify, ret, get.
  destruct (loader_load d (loads s)) as [env|e]; cbv beta iota; [|reflexivity].
  rewrite get_a11y_tree_loads. reflexivity.
Qed.


(** [get_a11y_forest], by the outcome of the first polling sequence. *)
Lemma get_a11y_forest_cases d (b : bool) s :
  _has_wrapper (self_env s) A11yGrpcWrapper = true ->
  check_airplane_mode d (probes s) = Return b ->
  get_a11y_forest d s =
  match poll_loop d 5 1%Q (probed d b s) with
  | (Return (Some f), s') => (Return f, s')
  | (Return None, s') => reconnect_and_retry d s'
  | (Raise e, s') =>
      if is_RuntimeError e then reconnect_and_retry d s' else (Raise e, s')
  end.
Proof.
  intros Hw Hp. unfold get_a11y_forest, try_except_class.
  unfold bind at 1, get at 1.
  rewrite (get_a11y_tree_polls d (self_env s) 5 1%Q b s Hw Hp).
  change (Z.to_nat 5) with 5%nat.
  destruct (poll_loop d 5 1%Q (probed d b s)) as [[[f|]|e] s']; reflexivity.
Qed.

End Recovery.

Section Claims.
Context {forest : Type}.
Implicit Types (d : device forest) (s : state) (f : forest) (e : exn).

Lemma polls_probed d (b : bool) s : polls (probed d b s) = polls s.
Proof. destruct b; reflexivity. Qed.



End Claims.





(** ** The wrapper chain *)

Lemma env_class_eqb_eq (a b : env_class) :
  env_class_eqb a b = true <-> a = b.
Proof. destruct a, b; cbn; split; (reflexivity || discriminate). Qed.

(** X6.  [_has_wrapper] finds a class exactly when the environment or
    one of the environments nested in its [_env] chain is an instance of
    it. *)
Theorem has_wrapper_iff_in_chain (env : env_obj) (target_wrapper : env_class) :
  _has_wrapper env target_wrapper = true <-> target_wrapper ∈ classes env.
Proof.
  induction env as [cls|cls inner IH]; cbn [_has_wrapper classes].
  - rewrite env_class_eqb_eq, list_elem_of_singleton. split; congruence.
  - rewrite elem_of_cons, <- IH.
    destruct (env_class_eqb cls target_wrapper) eqn:Heq.
    + apply env_class_eqb_eq in Heq. split; [left; congruence | reflexivity].
    + split; [right; assumption|].
      intros [-> | H]; [|exact H].
      assert (env_class_eqb cls cls = true) by (apply env_class_eqb_eq; reflexivity).
      congruence.
Qed.

Section Sleeps.
Context {forest : Type}.
Implicit Types (d : device forest) (s : state) (f : forest) (e : exn).

Lemma replicate_app_cons (k : nat) (x : Q) (l : list Q) :
  replicate k x ++ x :: l = replicate (S k) x ++ l.
Proof.
  change (x :: l) with ([x] ++ l).
  rewrite app_assoc, <- replicate_cons_app. reflexivity.
Qed.

(** A poll finds nothing, yields a snapshot, or raises. *)
Lemma poll_outcome_cases (r : result (gmap string (list forest))) :
  no_snapshot r \/ (exists f, snapshot r f) \/ (exists e, poll_raises r e).
Proof.
  destruct r as [extras|e]; cbn.
  - destruct (extras !! "accessibility_tree") as [trees|] eqn:Hk;
      [|left; reflexivity].
    right. destruct (last trees) as [f|] eqn:Hl.
    + left. exists f, extras, trees. repeat split; assumption.
    + right. exists (Exn IndexError "list index out of range").
      right. exists extras. apply last_None in Hl. subst trees.
      repeat split; assumption.
  - destruct (is_KeyError e) eqn:Hk; [left; reflexivity|].
    right. right. exists e. left. split; [reflexivity | exact Hk].
Qed.

(** The polling loop leaves the session, the probes and the networking
    alone; it polls at most [n] times and sleeps once after every poll
    that found nothing. *)
Lemma poll_loop_frame d (sd : Q) :
  forall (n : nat) s,
    self_env (snd (poll_loop d n sd s)) = self_env s
    /\ probes (snd (poll_loop d n sd s)) = probes s
    /\ networking_enabled (snd (poll_loop d n sd s)) = networking_enabled s
    /\ (polls s + ended (fst (poll_loop d n sd s))
        <= polls (snd (poll_loop d n sd s)))%nat
    /\ (polls (snd (poll_loop d n sd s)) <= polls s + n)%nat
    /\ slept (snd (poll_loop d n sd s))
       = replicate (polls (snd (poll_loop d n sd s)) - polls s
                    - ended (fst (poll_loop d n sd s))) sd
         ++ slept s.
Proof.
  induction n as [|n IH]; intros s.
  - cbn. rewrite Nat.sub_diag. cbn. repeat split; lia.
  - assert (Hstop : forall r : result (option forest),
               ended r = 1%nat ->
               let s1 := snd (env_accumulate_new_extras d s) in
               self_env s1 = self_env s
               /\ probes s1 = probes s
               /\ networking_enabled s1 = networking_enabled s
               /\ (polls s + ended r <= polls s1)%nat
               /\ (polls s1 <= polls s + S n)%nat
               /\ slept s1 = replicate (polls s1 - polls s - ended r) sd ++ slept s).
    { intros r Hr. cbn. rewrite Hr.
      replace (S (polls s) - polls s - 1)%nat with 0%nat by lia.
      cbn. repeat split; lia. }
    assert (Hmiss :
              self_env (snd (poll_loop d n sd (missed d sd s))) = self_env s
              /\ probes (snd (poll_loop d n sd (missed d sd s))) = probes s
              /\ networking_enabled (snd (poll_loop d n sd (missed d sd s)))
                 = networking_enabled s
              /\ (polls s + ended (fst (poll_loop d n sd (missed d sd s)))
                  <= polls (snd (poll_loop d n sd (missed d sd s))))%nat
              /\ (polls (snd (poll_loop d n sd (missed d sd s)))
                  <= polls s + S n)%nat
              /\ slept (snd (poll_loop d n sd (missed d sd s)))
                 = replicate (polls (snd (poll_loop d n sd (missed d sd s)))
                              - polls s
                              - ended (fst (poll_loop d n sd (missed d sd s)))) sd
                   ++ slept s).
    { destruct (IH (missed d sd s)) as (He & Hp & Hn & Hlo & Hhi & Hsl).
      cbn [missed time_sleep env_accumulate_new_extras modify snd
             self_env probes networking_enabled polls slept] in *.
      repeat split; try assumption; try lia.
      rewrite Hsl, replicate_app_cons. f_equal. f_equal. lia. }
    destruct (poll_outcome_cases (accumulate_new_extras d (polls s)))
      as [Hnone | [[f Hf] | [e He]]].
    + rewrite (poll_loop_miss_step d sd n s Hnone). exact Hmiss.
    + rewrite (poll_loop_hit_step d sd n s f Hf). cbn [fst snd].
      apply (Hstop (Return (Some f))). reflexivity.
    + rewrite (poll_loop_raise_step d sd n s e He). cbn [fst snd].
      apply (Hstop (Raise e)). reflexivity.
Qed.

End Sleeps.


Section Bounds.
Context {forest : Type}.
Implicit Types (d : device forest) (s : state) (f : forest) (e : exn).

(** [get_a11y_tree] never replaces the session; it probes at most once
    and polls at most [max_retries] times. *)
Lemma get_a11y_tree_frame d (env : env_obj) (max_retries : Z) (sd : Q) s :
  self_env (snd (get_a11y_tree d env max_retries sd s)) = self_env s
  /\ (polls s <= polls (snd (get_a11y_tree d env max_retries sd s))
      <= polls s + Z.to_nat max_retries)%nat
  /\ (probes s <= probes (snd (get_a11y_tree d env max_retries sd s))
      <= probes s + 1)%nat.
Proof.
  unfold get_a11y_tree.
  destruct (negb (_has_wrapper env A11yGrpcWrapper)); [cbn; repeat split; lia|].
  unfold bind, adb_check_airplane_mode. cbv beta.
  destruct (check_airplane_mode d (probes s)) as [b|e];
    [|cbn; repeat split; lia].
  destruct b; cbn; unfold bind;
    match goal with |- context [poll_loop ?d ?n ?sd ?s0] =>
      destruct (poll_loop_frame d sd n s0) as (He & Hp & _ & Hlo & Hhi & _);
      destruct (poll_loop d n sd s0) as [[[f|]|e] s'] end;
    cbn in *; repeat split; (congruence || lia).
Qed.

(** The handler of [get_a11y_forest]: one reconnect, then at most one
    more probe and five more polls; the session is the new one when
    [loader.load] returned and the old one when it raised. *)
Lemma reconnect_and_retry_frame d s :
  (polls s <= polls (snd (reconnect_and_retry d s)) <= polls s + 5)%nat
  /\ (probes s <= probes (snd (reconnect_and_retry d s)) <= probes s + 1)%nat
  /\ match loader_load d (loads s) with
     | Return env =>
         self_env (snd (reconnect_and_retry d s)) = UITreeWrapper_init env
     | Raise e =>
         reconnect_and_retry d s
         = (Raise e, {| self_env := self_env s; polls := polls s;
                        probes := probes s; loads := S (loads s);
                        networking_enabled := networking_enabled s;
                        slept := slept s |})
     end.
Proof.
  unfold reconnect_and_retry, refresh_env, get_wrapped_env, bind, modify, ret, get.
  destruct (loader_load d (loads s)) as [env|e]; cbv beta iota.
  - match goal with |- context [get_a11y_tree d ?env0 5 ?sd ?s2] =>
      destruct (get_a11y_tree_frame d env0 5 sd s2) as (He & Hp & Hq) end.
    cbn [self_env polls probes loads networking_enabled slept] in He, Hp, Hq |- *.
    change (Z.to_nat 5) with 5%nat in Hp.
    repeat split; (assumption || lia).
  - cbn. repeat split; lia.
Qed.

(** [get_a11y_forest] as its [try]/[except] reads. *)
Lemma get_a11y_forest_unfold d s :
  get_a11y_forest d s
  = match get_a11y_tree d (self_env s) 5 1%Q s with
    | (Return f, s1) => (Return f, s1)
    | (Raise e, s1) =>
        if is_RuntimeError e then reconnect_and_retry d s1 else (Raise e, s1)
    end.
Proof. reflexivity. Qed.

(** X7.  Whatever the device does, one call of [get_a11y_forest]
    reconnects at most once, polls at most ten times and probes the
    airplane mode at most twice. *)
Theorem capture_is_bounded d s :
  (loads (snd (get_a11y_forest d s)) <= loads s + 1)%nat
  /\ (polls (snd (get_a11y_forest d s)) <= polls s + 10)%nat
  /\ (probes (snd (get_a11y_forest d s)) <= probes s + 2)%nat.
Proof.
  rewrite get_a11y_forest_unfold.
  destruct (get_a11y_tree_frame d (self_env s) 5 1%Q s) as (_ & Hp & Hq).
  pose proof (get_a11y_tree_loads d (self_env s) 5 1%Q s) as Hl.
  change (Z.to_nat 5) with 5%nat in Hp.
  destruct (get_a11y_tree d (self_env s) 5 1%Q s) as [[f|e] s1];
    cbn [fst snd] in *; [repeat split; lia|].
  destruct (is_RuntimeError e); [|cbn [snd]; repeat split; lia].
  destruct (reconnect_and_retry_frame d s1) as (Hp2 & Hq2 & _).
  rewrite reconnect_and_retry_loads. repeat split; lia.
Qed.

(** X8.  A session that carries the accessibility wrapper still carries
    it after [get_a11y_forest], whether the capture succeeded, failed or
    reconnected. *)
Theorem capture_keeps_wrapper d s :
  _has_wrapper (self_env s) A11yGrpcWrapper = true ->
  _has_wrapper (self_env (snd (get_a11y_forest d s))) A11yGrpcWrapper = true.
Proof.
  intros Hw.
  rewrite get_a11y_forest_unfold.
  destruct (get_a11y_tree_frame d (self_env s) 5 1%Q s) as (He & _).
  pose proof (get_a11y_tree_loads d (self_env s) 5 1%Q s) as Hl.
  destruct (get_a11y_tree d (self_env s) 5 1%Q s) as [[f|e] s1];
    cbn [fst snd] in *; [congruence|].
  destruct (is_RuntimeError e); [|cbn [snd]; congruence].
  destruct (reconnect_and_retry_frame d s1) as (_ & _ & Henv).
  destruct (loader_load d (loads s1)) as [env|x].
  - rewrite Henv. reflexivity.
  - rewrite Henv. cbn [snd self_env]. congruence.
Qed.

(** X9.  Without the accessibility wrapper on the session,
    [get_a11y_forest] raises the [ValueError] of [get_a11y_tree] at once:
    no probe, no poll, no sleep and no reconnect. *)
Theorem capture_without_wrapper d s :
  _has_wrapper (self_env s) A11yGrpcWrapper = false ->
  get_a11y_forest d s
  = (Raise (Exn ValueError
              "Must use a11y_grpc_wrapper.A11yGrpcWrapper to get the a11y tree."),
     s).
Proof.
  intros Hw. rewrite get_a11y_forest_unfold. unfold get_a11y_tree.
  rewrite Hw. reflexivity.
Qed.


(** X11.  When the five polls find nothing and [loader.load] raises
    during the reconnect, that exception reaches the caller of
    [get_a11y_forest], whatever its class; the session is the old one,
    polled five times, and one reconnect was attempted. *)
Theorem capture_reconnect_fails d (b : bool) s e :
  _has_wrapper (self_env s) A11yGrpcWrapper = true ->
  check_airplane_mode d (probes s) = Return b ->
  (forall i, (i < 5)%nat ->
             no_snapshot (accumulate_new_extras d (polls s + i))) ->
  loader_load d (loads s) = Raise e ->
  fst (get_a11y_forest d s) = Raise e
  /\ self_env (snd (get_a11y_forest d s)) = self_env s
  /\ polls (snd (get_a11y_forest d s)) = (polls s + 5)%nat
  /\ loads (snd (get_a11y_forest d s)) = S (loads s).
Proof.
  intros Hw Hp Hmiss Hload.
  rewrite (get_a11y_forest_cases d b s Hw Hp).
  destruct (poll_loop_exhausted d 1%Q 5 (probed d b s)) as (s1 & Hrun & Hmv).
  { intros i Hi. rewrite polls_probed. apply Hmiss, Hi. }
  destruct (poll_loop_frame d 1%Q 5 (probed d b s)) as (He & _).
  rewrite Hrun in He |- *. cbn [snd] in He.
  pose proof (moved_probed d b s) as Hmp.
  assert (Hs1 : polls s1 = (polls s + 5)%nat /\ loads s1 = loads s
                /\ self_env s1 = self_env s).
  { unfold moved in *. repeat split; try lia.
    rewrite He. destruct b; reflexivity. }
  destruct Hs1 as (Hpolls1 & Hloads1 & Henv1).
  destruct (reconnect_and_retry_frame d s1) as (_ & _ & Hfail).
  rewrite Hloads1, Hload in Hfail. rewrite Hfail. cbn [fst snd self_env polls loads].
  repeat split; congruence.
Qed.

End Bounds.

Lemma capture_keeps_wrapper_witness :
  _has_wrapper
    (self_env (snd (get_a11y_forest (ready_after 7 3%nat)
                      (fresh (Plain AndroidEnv)))))
    A11yGrpcWrapper = true.
Proof.
  apply (capture_keeps_wrapper (ready_after 7 3%nat) (fresh (Plain AndroidEnv))).
  reflexivity.
Defined.

Lemma capture_without_wrapper_witness :
  get_a11y_forest (forest := nat) dead_session unwrapped
  = (Raise (Exn ValueError
              "Must use a11y_grpc_wrapper.A11yGrpcWrapper to get the a11y tree."),
     unwrapped).
Proof.
  apply (capture_without_wrapper (forest := nat) dead_session unwrapped).
  reflexivity.
Defined.


Lemma capture_reconnect_fails_witness :
  fst (get_a11y_forest (forest := nat) dead_session (fresh (Plain AndroidEnv)))
  = Raise (Exn OtherException "emulator not found")
  /\ self_env (snd (get_a11y_forest (forest := nat) dead_session
                      (fresh (Plain AndroidEnv))))
     = UITreeWrapper_init (Plain AndroidEnv)
  /\ polls (snd (get_a11y_forest (forest := nat) dead_session
                   (fresh (Plain AndroidEnv)))) = 5%nat
  /\ loads (snd (get_a11y_forest (forest := nat) dead_session
                   (fresh (Plain AndroidEnv)))) = 1%nat.
Proof.
  apply (capture_reconnect_fails (forest := nat) dead_session true
           (fresh (Plain AndroidEnv)) (Exn OtherException "emulator not found")).
  - reflexivity.
  - reflexivity.
  - intros i Hi. apply lookup_empty.
  - reflexivity.
Defined.

End ui_tree_wrapper_spec.

(** * Properties of [benchmark_run.py] *)
Module benchmark_run_spec.
Import benchmark_run.

(** ** The error log *)

Lemma print_and_log_error_existing (a : args) (message : string) (s : state) :
  fs s !! (output_dir a +:+ "/error.json") <> None ->
  print_and_log_error a message s = (Return tt, s).
Proof.
  unfold print_and_log_error, bind, get. cbv beta iota.
  destruct (fs s !! (output_dir a +:+ "/error.json")); [reflexivity | congruence].
Qed.

Lemma log_errors_existing (a : args) (messages : list string) :
  forall s, fs s !! (output_dir a +:+ "/error.json") <> None ->
            log_errors a messages s = (Return tt, s).
Proof.
  induction messages as [|m rest IH]; intros s Hs; [reflexivity|].
  cbn [log_errors]. unfold bind.
  rewrite (print_and_log_error_existing a m s Hs). apply IH, Hs.
Qed.

(** C9.  When [error.json] does not exist yet, the first call of
    [print_and_log_error] writes the one-element array made of its
    message; a call that finds the file leaves everything as it is; so
    after the first and any number of later calls the file still holds
    the first message alone. *)
Theorem error_log_first_write_wins
    (a : args) (first : string) (later : list string) (s : state) :
  fs s !! (output_dir a +:+ "/error.json") = None ->
  fs (snd (print_and_log_error a first s)) !! (output_dir a +:+ "/error.json")
  = Some (ErrorJson [first])
  /\ (forall (message : string) (s' : state),
         fs s' !! (output_dir a +:+ "/error.json") <> None ->
         print_and_log_error a message s' = (Return tt, s'))
  /\ fs (snd (log_errors a (first :: later) s)) !! (output_dir a +:+ "/error.json")
     = Some (ErrorJson [first]).
Proof.
  intros Hnone.
  assert (Hfirst :
            fs (snd (print_and_log_error a first s))
              !! (output_dir a +:+ "/error.json") = Some (ErrorJson [first])).
  { unfold print_and_log_error, bind, get. cbv beta iota.
    rewrite Hnone. cbn. apply lookup_insert_eq. }
  split; [exact Hfirst|]. split.
  - intros message s'. apply print_and_log_error_existing.
  - cbn [log_errors]. unfold bind.
    destruct (print_and_log_error a first s) as [[[]|e] s1] eqn:Hcall.
    + cbn [snd] in Hfirst.
      rewrite log_errors_existing by (rewrite Hfirst; discriminate).
      exact Hfirst.
    + exfalso. revert Hcall.
      unfold print_and_log_error, bind, get. cbv beta iota.
      rewrite Hnone. discriminate.
Qed.

Lemma error_log_first_write_wins_witness :
  fs (initial ∅) !! "out/error.json" = None
  /\ fs (snd (log_errors (sample_args 3)
                ["Error taking step: a"; "Error handling log: b"] (initial ∅)))
       !! "out/error.json"
     = Some (ErrorJson ["Error taking step: a"]).
Proof.
  split; [reflexivity|].
  apply (error_log_first_write_wins (sample_args 3) "Error taking step: a"
           ["Error handling log: b"] (initial ∅)).
  reflexivity.
Defined.

(** ** One round of the episode loop *)

Lemma png_suffix_not_log_json (t : string) : t +:+ ".png" <> "log.json".
Proof.
  destruct t as [|c1 [|c2 [|c3 [|c4 [|c5 t]]]]]; cbn; intros H;
    try discriminate.
  injection H as _ _ _ _ _ H. destruct t as [|c6 [|c7 [|c8 t]]]; cbn in H;
    try discriminate.
  injection H as _ _ _ H. destruct t; discriminate.
Qed.

Lemma png_path_not_log (a : args) (z : Z) :
  output_dir a +:+ "/" +:+ str_of_Z z +:+ ".png" <> log_path a.
Proof.
  unfold log_path. intros H. apply (inj (String.app (output_dir a))) in H.
  cbn in H. injection H as H. exact (png_suffix_not_log_json _ H).
Qed.

Lemma error_path_not_log (a : args) :
  output_dir a +:+ "/error.json" <> log_path a.
Proof.
  unfold log_path. intros H. apply (inj (String.app (output_dir a))) in H.
  discriminate.
Qed.

Lemma no_log_write_refl (a : args) (s : state) : no_log_write a s s.
Proof. exists []. split; [reflexivity | constructor]. Qed.

Lemma no_log_write_trans (a : args) (s1 s2 s3 : state) :
  no_log_write a s1 s2 -> no_log_write a s2 s3 -> no_log_write a s1 s3.
Proof.
  intros (p1 & H1 & F1) (p2 & H2 & F2). exists (p2 ++ p1). split.
  - rewrite H2, H1, app_assoc. reflexivity.
  - apply Forall_app. split; assumption.
Qed.

Lemma no_log_write_same (a : args) (s s' : state) :
  written s' = written s -> no_log_write a s s'.
Proof. intros H. exists []. split; [exact H | constructor]. Qed.

Lemma no_log_write_one (a : args) (s s' : state) (path : string) :
  written s' = path :: written s -> path <> log_path a ->
  no_log_write a s s'.
Proof.
  intros H Hp. exists [path]. split; [exact H|].
  constructor; [exact Hp | constructor].
Qed.

Lemma print_and_log_error_kept (a : args) (message : string) (s : state) :
  exists s',
    print_and_log_error a message s = (Return tt, s')
    /\ kept s s' /\ same_log s s' /\ no_log_write a s s'.
Proof.
  unfold print_and_log_error, bind, get. cbv beta iota.
  destruct (fs s !! (output_dir a +:+ "/error.json"));
    eexists; (split; [reflexivity|]); (split; [|split]);
    try (repeat split; fail).
  - apply no_log_write_refl.
  - eapply no_log_write_one; [reflexivity | apply error_path_not_log].
Qed.

(** Lines 90-153 build the entry [step_record] describes, or raise what
    it raises; they leave the flags and the round counter alone. *)
Lemma log_step_spec (a : args) (ag : agent_kind) (r : response) (cnt : Z)
    (s : state) :
  exists s',
    kept s s'
    /\ no_log_write a s s'
    /\ match step_record ag r cnt with
       | Return e =>
           log_step a ag r cnt s = (Return tt, s')
           /\ benchmark_log s' = benchmark_log s ++ [StepEntry e]
           /\ prompt_total s' = prompt_total s + prompt_tokens e
           /\ completion_total s' = completion_total s + completion_tokens e
       | Raise x =>
           log_step a ag r cnt s = (Raise x, s')
           /\ benchmark_log s' = benchmark_log s
       end.
Proof.
  pose proof (png_path_not_log a (cnt - 1)) as Hpng.
  unfold log_step, step_record.
  generalize (array ← lookup_data (data r) (screenshot_key ag);
              image_fromarray array)
             (normalize ag (data r))
             (token_counts ag fst (data r) (raw_response_key ag))
             (token_counts ag snd (data r) (raw_response_key ag))
             (collect (data r) (log_keys ag)).
  intros [px|x1] [al|x2] [p|x3] [c|x4] [en|x5]; cbn;
    eexists; (split; [|split; [|split; [reflexivity|]]]);
    try (repeat split; fail);
    first [ apply no_log_write_refl
          | eapply no_log_write_one; [reflexivity | exact Hpng] ].
Qed.

(** The body of the loop, unfolded. *)
Lemma round_unfold (a : args) (w : world) (cnt : Z) (s : state) :
  round a w cnt s =
  match agent_step_call a w cnt with
  | Raise x =>
      (Return true,
       snd (set_error_code 2
              (snd (print_and_log_error a ("Error taking step: " +:+ exn_msg x)
                      (snd (set_action_cnt cnt s))))))
  | Return (ag, r) =>
      match log_step a ag r cnt (snd (set_action_cnt cnt s)) with
      | (Return _, s1) =>
          if done r then (Return true, snd (set_is_done true s1))
          else (Return false, s1)
      | (Raise x, s1) =>
          (Return true,
           snd (set_error_code 1
                  (snd (print_and_log_error a
                          ("Error handling log: " +:+ exn_msg x) s1))))
      end
  end.
Proof.
  unfold round. unfold bind at 1. unfold set_action_cnt at 1, modify at 1.
  unfold bind at 1, try_except at 1, bind at 1, lift at 1.
  destruct (agent_step_call a w cnt) as [[ag r]|x].
  - unfold ret at 1. unfold try_except at 1. unfold bind at 1.
    cbn [snd set_action_cnt modify].
    match goal with |- context [log_step a ag r cnt ?s0] =>
      destruct (log_step a ag r cnt s0) as [[[]|x] s1] end.
    + destruct (done r); reflexivity.
    + unfold bind at 1.
      destruct (print_and_log_error_kept a ("Error handling log: " +:+ exn_msg x) s1)
        as (s2 & -> & _).
      reflexivity.
  - unfold bind at 1. cbn [snd set_action_cnt modify].
    match goal with |- context [print_and_log_error a ?m ?s0] =>
      destruct (print_and_log_error_kept a m s0) as (s2 & -> & _) end.
    reflexivity.
Qed.

(** One round, by what the agent does in it. *)
Lemma round_spec (a : args) (w : world) (cnt : Z) (s : state) :
  exists s',
    action_cnt s' = Some cnt
    /\ env_closed s' = env_closed s
    /\ no_log_write a s s'
    /\ match agent_step_call a w cnt with
       | Raise x =>
           round a w cnt s = (Return true, s')
           /\ error_code s' = 2
           /\ is_done s' = is_done s
           /\ same_log s s'
       | Return (ag, r) =>
           match step_record ag r cnt with
           | Raise x =>
               round a w cnt s = (Return true, s')
               /\ error_code s' = 1
               /\ is_done s' = is_done s
               /\ benchmark_log s' = benchmark_log s
           | Return e =>
               round a w cnt s = (Return (done r), s')
               /\ error_code s' = error_code s
               /\ is_done s' = (if done r then true else is_done s)
               /\ benchmark_log s' = benchmark_log s ++ [StepEntry e]
               /\ prompt_total s' = prompt_total s + prompt_tokens e
               /\ completion_total s' = completion_total s + completion_tokens e
           end
       end.
Proof.
  rewrite round_unfold.
  assert (Hw0 : no_log_write a s (snd (set_action_cnt cnt s)))
    by (apply no_log_write_same; reflexivity).
  destruct (agent_step_call a w cnt) as [[ag r]|x].
  - destruct (log_step_spec a ag r cnt (snd (set_action_cnt cnt s)))
      as (s1 & (Hd & He & Hc & Hcl) & Hw1 & Hlog).
    pose proof (no_log_write_trans a _ _ _ Hw0 Hw1) as Hw.
    cbn in Hd, He, Hc, Hcl.
    destruct (step_record ag r cnt) as [e|x].
    + destruct Hlog as (-> & Hl & Hp & Hcm). cbn in Hl, Hp, Hcm.
      destruct (done r); eexists;
        (split; [|split; [|split; [|split; [reflexivity|]]]]);
        cbn; first [ exact Hw
                   | eapply no_log_write_trans; [exact Hw|];
                     apply no_log_write_same; reflexivity
                   | repeat split; assumption ].
    + destruct Hlog as (-> & Hl). cbn in Hl.
      destruct (print_and_log_error_kept a ("Error handling log: " +:+ exn_msg x) s1)
        as (s2 & Heq & (Hd2 & He2 & Hc2 & Hcl2) & (Hl2 & _) & Hw2).
      rewrite Heq.
      eexists; (split; [|split; [|split; [|split; [reflexivity|]]]]);
        cbn; first [ eapply no_log_write_trans; [exact Hw|];
                     eapply no_log_write_trans; [exact Hw2|];
                     apply no_log_write_same; reflexivity
                   | repeat split; congruence ].
  - destruct (print_and_log_error_kept a ("Error taking step: " +:+ exn_msg x)
                (snd (set_action_cnt cnt s)))
      as (s2 & Heq & (Hd2 & He2 & Hc2 & Hcl2) & (Hl2 & Hp2 & Hcm2) & Hw2).
    rewrite Heq. cbn in Hd2, He2, Hc2, Hcl2, Hl2, Hp2, Hcm2.
    eexists; (split; [|split; [|split; [|split; [reflexivity|]]]]);
      cbn; first [ eapply no_log_write_trans; [exact Hw0|];
                   eapply no_log_write_trans; [exact Hw2|];
                   apply no_log_write_same; reflexivity
                 | repeat split; assumption ].
Qed.

(** ** The episode loop *)

Local Ltac settle :=
  repeat split; intros;
  first [ assumption | congruence | lia | apply no_log_write_refl ].

Lemma outcome_None (a : args) (w : world) (cnts : list Z) :
  outcome a w cnts = None -> cnts = [].
Proof.
  destruct cnts as [|cnt rest]; [reflexivity|]. cbn.
  destruct (agent_step_call a w cnt) as [[ag r]|x]; [|discriminate].
  destruct (step_record ag r cnt); [|discriminate].
  destruct (done r); [discriminate|].
  destruct (outcome a w rest); discriminate.
Qed.

(** The loop over the rounds [cnts] ends; it has logged [records] and
    stopped the way [outcome] says. *)
Lemma for_loop_spec (a : args) (w : world) :
  forall (cnts : list Z) (s : state),
    is_done s = false ->
    error_code s = 0 ->
    exists s',
      for_loop a w cnts s = (Return tt, s')
      /\ benchmark_log s' = benchmark_log s ++ map StepEntry (records a w cnts)
      /\ env_closed s' = env_closed s
      /\ no_log_write a s s'
      /\ match outcome a w cnts with
         | None =>
             action_cnt s' = action_cnt s
             /\ is_done s' = false /\ error_code s' = 0
             /\ prompt_total s' = prompt_total s
             /\ completion_total s' = completion_total s
         | Some (c, how) =>
             action_cnt s' = Some c
             /\ is_done s' = done_flag how
             /\ error_code s' = code_of how
             /\ (how <> LogError ->
                 prompt_total s'
                 = prompt_total s + sum (map prompt_tokens (records a w cnts))
                 /\ completion_total s'
                    = completion_total s
                      + sum (map completion_tokens (records a w cnts)))
         end.
Proof.
  induction cnts as [|cnt rest IH]; intros s Hdone Hcode.
  - exists s. cbn. rewrite app_nil_r. settle.
  - cbn [for_loop outcome records]. unfold bind.
    destruct (round_spec a w cnt s) as (s1 & Hc & Hcl & Hw & Hr).
    destruct (agent_step_call a w cnt) as [[ag r]|x];
      [destruct (step_record ag r cnt) as [e|x]|].
    + destruct Hr as (-> & He & Hd & Hl & Hp & Hcm).
      destruct (done r).
      * exists s1. cbn. settle.
      * destruct (IH s1) as (s' & Hrun & Hl' & Hcl' & Hw' & Hout);
          [congruence | congruence |].
        exists s'. split; [exact Hrun|]. split.
        { rewrite Hl', Hl, <- app_assoc. reflexivity. }
        split; [congruence|].
        split; [exact (no_log_write_trans a _ _ _ Hw Hw')|].
        destruct (outcome a w rest) as [[c how]|] eqn:Hrest.
        -- destruct Hout as (Hc' & Hd' & He' & Ht').
           repeat split; try assumption;
             destruct (Ht' H) as [Hp' Hcm']; unfold sum in *; cbn in *; lia.
        -- destruct Hout as (Hc' & Hd' & He' & Hp' & Hcm').
           apply outcome_None in Hrest. subst rest.
           unfold sum in *; cbn in *; settle.
    + destruct Hr as (-> & He & Hd & Hl).
      exists s1. cbn. rewrite app_nil_r. settle.
    + destruct Hr as (-> & He & Hd & Hl & Hp & Hcm).
      exists s1. cbn. rewrite app_nil_r. settle.
Qed.


Lemma exit_code_selection_spec (a : args) (s : state) (c : Z) (how : stop) :
  is_done s = done_flag how ->
  error_code s = code_of how ->
  exit_code_selection a s c = SysExit (exit_of a c how).
Proof.
  unfold exit_code_selection, exit_of. intros -> ->.
  destruct how; cbn [code_of done_flag];
    try reflexivity; destruct (bool_decide (c = max_rounds a)); reflexivity.
Qed.

(** ** The whole run *)

(** What a run leaves behind, by where and how its loop stops.  With no
    round at all ([max_rounds <= 0]) the name [action_cnt] is unbound at
    line 169: the run dies there and writes nothing.  Otherwise
    [log.json] is written once, with the step entries of the rounds that
    were logged and one summary entry after them. *)
Theorem run_spec (a : args) (w : world) (fs0 : gmap string file) :
  match outcome a w (range1 (max_rounds a + 1)) with
  | None =>
      exists s,
        run a w fs0
        = (Uncaught (Exn NameError "name 'action_cnt' is not defined"), s)
        /\ fs s = fs0 /\ written s = [] /\ env_closed s = 1%nat
  | Some (c, how) =>
      exists s sm paths,
        run a w fs0 = (SysExit (exit_of a c how), s)
        /\ fs s !! log_path a
           = Some (LogJson (map StepEntry
                              (records a w (range1 (max_rounds a + 1)))
                            ++ [SummaryEntry sm]))
        /\ written s = log_path a :: paths
        /\ Forall (fun p => p <> log_path a) paths
        /\ env_closed s = 1%nat
        /\ is_done s = done_flag how
        /\ error_code s = code_of how
        /\ total_steps sm = c - 1
        /\ finish_signal sm = Z.b2z (done_flag how)
        /\ elapsed_time_initial sm = (clock w 1 - clock w 0)%Q
        /\ elapsed_time_exec sm = (clock w 3 - clock w 2)%Q
        /\ (how <> LogError ->
            total_prompt_tokens sm
            = sum (map prompt_tokens (records a w (range1 (max_rounds a + 1))))
            /\ total_completion_tokens sm
               = sum (map completion_tokens
                        (records a w (range1 (max_rounds a + 1)))))
  end.
Proof.
  destruct (for_loop_spec a w (range1 (max_rounds a + 1)) (initial fs0)
              eq_refl eq_refl) as (s1 & Hrun & Hlog & Hcl & Hw & Hout).
  destruct (outcome a w (range1 (max_rounds a + 1))) as [[c how]|] eqn:Hwhere;
    unfold run, main; unfold bind at 1; rewrite Hrun;
    unfold bind at 1, env_close at 1, modify at 1;
    unfold bind at 1, get at 1; cbn [action_cnt].
  - destruct Hout as (Hc & Hd & He & Ht). rewrite Hc.
    destruct Hw as (paths & Hpaths & Hnot).
    cbn in Hlog, Hcl, Hpaths. rewrite app_nil_r in Hpaths.
    unfold bind at 1, log_append at 1, modify at 1.
    unfold bind at 1, get at 1. unfold bind at 1, write_file at 1, modify at 1.
    unfold ret. cbn [fs written is_done benchmark_log error_code prompt_total
                       completion_total action_cnt env_closed].
    rewrite (exit_code_selection_spec a _ c how) by (cbn; assumption).
    eexists _, _, paths. split; [reflexivity|].
    cbn [fs written env_closed total_steps finish_signal elapsed_time_initial
            elapsed_time_exec total_prompt_tokens total_completion_tokens].
    split; [unfold log_path; rewrite lookup_insert_eq, Hlog; reflexivity|].
    split; [rewrite Hpaths; reflexivity|].
    split; [exact Hnot|].
    split; [rewrite Hcl; reflexivity|].
    cbn [is_done error_code].
    split; [exact Hd|]. split; [exact He|].
    split; [reflexivity|].
    split; [rewrite Hd; reflexivity|].
    split; [reflexivity|]. split; [reflexivity|].
    intros Hhow. destruct (Ht Hhow) as [Hp Hcm]. cbn in Hp, Hcm.
    split; assumption.
  - destruct Hout as (Hc & _). apply outcome_None in Hwhere.
    rewrite Hwhere in Hrun. cbn in Hrun. injection Hrun as <-.
    cbn. eexists. repeat split.
Qed.


(** ** Where the loop stops *)

Lemma step_record_step (ag : agent_kind) (r : response) (cnt : Z)
    (e : step_entry) :
  step_record ag r cnt = Return e -> step e = cnt.
Proof.
  unfold step_record.
  generalize (array ← lookup_data (data r) (screenshot_key ag);
              image_fromarray array)
             (normalize ag (data r))
             (token_counts ag fst (data r) (raw_response_key ag))
             (token_counts ag snd (data r) (raw_response_key ag))
             (collect (data r) (log_keys ag)).
  intros [px|x1] [al|x2] [p|x3] [c|x4] [en|x5]; cbn; intros [= <-];
    reflexivity.
Qed.

Lemma seqZ_succ (k : Z) (n : nat) :
  seqZ k (Z.of_nat (S n)) = k :: seqZ (k + 1) (Z.of_nat n).
Proof.
  rewrite seqZ_cons by lia. f_equal. f_equal; lia.
Qed.

(** After [n] clean rounds the loop is where it would be on the
    remaining rounds, [n] entries further. *)
Lemma outcome_after_clean (a : args) (w : world) (rest : list Z) :
  forall (n : nat) (k : Z),
    (forall i, k <= i < k + Z.of_nat n -> clean a w i) ->
    outcome a w (seqZ k (Z.of_nat n) ++ rest)
    = match outcome a w rest with
      | Some o => Some o
      | None => match n with
                | O => None
                | S _ => Some (k + Z.of_nat n - 1, MaxRounds)
                end
      end
    /\ exists es,
        length es = n
        /\ map step es = seqZ k (Z.of_nat n)
        /\ records a w (seqZ k (Z.of_nat n) ++ rest) = es ++ records a w rest.
Proof.
  induction n as [|n IH]; intros k Hclean.
  - rewrite seqZ_nil by lia. cbn [app].
    split; [destruct (outcome a w rest); reflexivity|].
    exists []. repeat split.
  - rewrite seqZ_succ. cbn [app outcome records].
    destruct (Hclean k) as (ag & r & e & Hcall & Hrec & Hdone); [lia|].
    rewrite Hcall, Hrec, Hdone.
    destruct (IH (k + 1)) as (Hout & es & Hlen & Hsteps & Hrecs).
    { intros i Hi. apply Hclean. lia. }
    rewrite Hout, Hrecs. split.
    + destruct (outcome a w rest); [reflexivity|].
      destruct n; cbn [outcome]; f_equal; f_equal; lia.
    + exists (e :: es). cbn. rewrite Hlen, Hsteps.
      rewrite (step_record_step ag r k e Hrec). repeat split.
Qed.

(** All [n >= 1] rounds clean: the loop runs out of rounds in round [n],
    with [n] entries logged. *)
Lemma outcome_max_rounds (a : args) (w : world) (n : nat) :
  (forall i, 1 <= i <= Z.of_nat (S n) -> clean a w i) ->
  outcome a w (seqZ 1 (Z.of_nat (S n))) = Some (Z.of_nat (S n), MaxRounds)
  /\ length (records a w (seqZ 1 (Z.of_nat (S n)))) = S n
  /\ map step (records a w (seqZ 1 (Z.of_nat (S n)))) = seqZ 1 (Z.of_nat (S n)).
Proof.
  intros Hclean.
  destruct (outcome_after_clean a w [] (S n) 1) as (Hout & es & Hlen & Hsteps & Hrecs).
  { intros i Hi. apply Hclean. lia. }
  rewrite app_nil_r in Hout, Hrecs. cbn [outcome records] in Hout, Hrecs.
  rewrite app_nil_r in Hrecs. rewrite Hout, Hrecs.
  split; [f_equal; f_equal; lia|]. split; assumption.
Qed.

(** [n] clean rounds, then a round whose log handling raises: the loop
    stops in round [n + 1] on a log error, with [n] entries logged. *)
Lemma outcome_log_error_last (a : args) (w : world) (n : nat)
    (ag : agent_kind) (r : response) (x : exn) :
  (forall i, 1 <= i < Z.of_nat (S n) -> clean a w i) ->
  agent_step_call a w (Z.of_nat (S n)) = Return (ag, r) ->
  step_record ag r (Z.of_nat (S n)) = Raise x ->
  outcome a w (seqZ 1 (Z.of_nat (S n))) = Some (Z.of_nat (S n), LogError)
  /\ length (records a w (seqZ 1 (Z.of_nat (S n)))) = n.
Proof.
  intros Hclean Hcall Hrec.
  destruct (outcome_after_clean a w [Z.of_nat (S n)] n 1)
    as (Hout & es & Hlen & Hsteps & Hrecs).
  { intros i Hi. apply Hclean. lia. }
  rewrite seqZ_S. replace (1 + Z.of_nat n) with (Z.of_nat (S n)) by lia.
  rewrite Hout, Hrecs. cbn [outcome records]. rewrite Hcall, Hrec.
  split; [reflexivity|]. rewrite app_nil_r. exact Hlen.
Qed.

Lemma range1_max_rounds (a : args) (n : nat) :
  max_rounds a = Z.of_nat n ->
  range1 (max_rounds a + 1) = seqZ 1 (Z.of_nat n).
Proof. intros ->. unfold range1. f_equal. lia. Qed.


(** ** Completion, log errors and the maximum of rounds *)

(** C1, on the code.  With [max_rounds = 3], an agent whose steps 1 and
    2 raise nothing and are logged, and whose decision signals completion
    in step 2: the process exits with status 0 and [log.json] holds the
    two step entries and then one summary entry with [finish_signal = 1];
    but the summary has [total_steps = 1], not 2. *)
Theorem completion_in_round_2 (a : args) (w : world) (fs0 : gmap string file)
    (ag : agent_kind) (r1 r2 : response) (e1 e2 : step_entry) :
  max_rounds a = 3 ->
  agent a = Some ag ->
  agent_step w 1 = Return r1 ->
  step_record ag r1 1 = Return e1 ->
  done r1 = false ->
  agent_step w 2 = Return r2 ->
  step_record ag r2 2 = Return e2 ->
  done r2 = true ->
  exists s sm,
    run a w fs0 = (SysExit 0, s)
    /\ fs s !! log_path a
       = Some (LogJson [StepEntry e1; StepEntry e2; SummaryEntry sm])
    /\ finish_signal sm = 1
    /\ total_steps sm = 1.
Proof.
  intros Hmax Hag H1 Hrec1 Hd1 H2 Hrec2 Hd2.
  pose proof (run_spec a w fs0) as Hrun.
  rewrite Hmax in Hrun. change (range1 (3 + 1)) with [1; 2; 3] in Hrun.
  cbn [outcome records] in Hrun. unfold agent_step_call in Hrun.
  rewrite Hag, H1, H2 in Hrun. cbn [mbind result_bind] in Hrun.
  rewrite Hrec1, Hd1, Hrec2, Hd2 in Hrun.
  destruct Hrun as (s & sm & paths & Hexit & Hlog & _ & _ & _ & _ & _
                      & Htotal & Hfinish & _).
  exists s, sm. repeat split; assumption.
Qed.

Lemma completion_in_round_2_witness :
  exists s sm e1 e2,
    run (sample_args 3) (finishes_at 2) ∅ = (SysExit 0, s)
    /\ fs s !! "out/log.json"
       = Some (LogJson [StepEntry e1; StepEntry e2; SummaryEntry sm])
    /\ finish_signal sm = 1
    /\ total_steps sm = 1.
Proof.
  pose (r1 := {| data := sample_data (VAction (sample_action "click"));
                 done := false |}).
  pose (r2 := {| data := sample_data (VAction (sample_action "status"));
                 done := true |}).
  pose (e1 := {| step := 1;
                 logged := [("action_output", VStr "Action: ...");
                            ("summary", VStr "Summary: ...")];
                 prompt_tokens := 100; completion_tokens := 7;
                 action := {| log_action_type := "click";
                              detail_type := "coordinates";
                              detail := VCoords [10; 20; 30; 40] |} |}).
  pose (e2 := {| step := 2;
                 logged := [("action_output", VStr "Action: ...");
                            ("summary", VStr "Summary: ...")];
                 prompt_tokens := 100; completion_tokens := 7;
                 action := {| log_action_type := "status";
                              detail_type := "string";
                              detail := VStr "Task completed." |} |}).
  assert (Hrec1 : step_record M3A r1 1 = Return e1) by (vm_compute; reflexivity).
  assert (Hrec2 : step_record M3A r2 2 = Return e2) by (vm_compute; reflexivity).
  destruct (completion_in_round_2 (sample_args 3) (finishes_at 2) ∅ M3A
              r1 r2 e1 e2 eq_refl eq_refl eq_refl Hrec1 eq_refl eq_refl
              Hrec2 eq_refl) as (s & sm & H).
  exists s, sm, e1, e2. exact H.
Defined.

(** C3, on the code.  When the rounds before the last go through and the
    log handling of the last round ([action_cnt = max_rounds]) raises, the
    handler sets [error_code = 1], but the process exits with status 4,
    the status of a run that reached the maximum of rounds. *)
Theorem log_error_in_last_round (a : args) (w : world)
    (fs0 : gmap string file) (n : nat)
    (ag : agent_kind) (r : response) (x : exn) :
  max_rounds a = Z.of_nat (S n) ->
  (forall i, 1 <= i < max_rounds a -> clean a w i) ->
  agent_step_call a w (max_rounds a) = Return (ag, r) ->
  step_record ag r (max_rounds a) = Raise x ->
  exists s,
    run a w fs0 = (SysExit 4, s)
    /\ error_code s = 1
    /\ is_done s = false.
Proof.
  intros Hmax Hclean Hcall Hrec. rewrite Hmax in Hclean, Hcall, Hrec.
  destruct (outcome_log_error_last a w n ag r x Hclean Hcall Hrec) as [Hout _].
  pose proof (run_spec a w fs0) as Hrun.
  rewrite (range1_max_rounds a (S n) Hmax), Hout in Hrun.
  destruct Hrun as (s & sm & paths & Hexit & _ & _ & _ & _ & Hd & He & _).
  exists s. unfold exit_of in Hexit.
  rewrite Hmax, bool_decide_eq_true_2 in Hexit by reflexivity.
  repeat split; assumption.
Qed.

Lemma log_error_in_last_round_witness :
  exists s,
    run (sample_args 1) (no_screenshot_at 1) ∅ = (SysExit 4, s)
    /\ error_code s = 1
    /\ is_done s = false.
Proof.
  apply (log_error_in_last_round (sample_args 1) (no_screenshot_at 1) ∅ 0 M3A
           {| data := ∅; done := false |}
           (Exn KeyError "'benchmark_screenshot'")).
  - reflexivity.
  - intros i Hi. cbn in Hi. lia.
  - reflexivity.
  - vm_compute. reflexivity.
Defined.

(** C8, on the code.  When every round goes through and the loop runs
    out of rounds, [log.json] holds [max_rounds] step entries and a
    summary entry whose [total_steps] is [max_rounds - 1]; and with
    [max_rounds <= 0] the run dies on the unbound [action_cnt] before
    [log.json] is written. *)
Theorem summary_after_max_rounds (a : args) (w : world)
    (fs0 : gmap string file) :
  (forall n : nat,
      max_rounds a = Z.of_nat (S n) ->
      (forall i, 1 <= i <= max_rounds a -> clean a w i) ->
      exists s sm steps,
        run a w fs0 = (SysExit 4, s)
        /\ fs s !! log_path a
           = Some (LogJson (map StepEntry steps ++ [SummaryEntry sm]))
        /\ map step steps = seqZ 1 (max_rounds a)
        /\ Z.of_nat (length steps) = max_rounds a
        /\ finish_signal sm = 0
        /\ total_steps sm = max_rounds a - 1)
  /\ (max_rounds a <= 0 ->
      exists s,
        run a w fs0
        = (Uncaught (Exn NameError "name 'action_cnt' is not defined"), s)
        /\ fs s = fs0
        /\ written s = []).
Proof.
  pose proof (run_spec a w fs0) as Hrun. split.
  - intros n Hmax Hclean. rewrite Hmax in Hclean.
    destruct (outcome_max_rounds a w n Hclean) as (Hout & Hlen & Hsteps).
    rewrite (range1_max_rounds a (S n) Hmax), Hout in Hrun.
    destruct Hrun as (s & sm & paths & Hexit & Hlog & _ & _ & _ & _ & _
                        & Htotal & Hfinish & _).
    exists s, sm, (records a w (seqZ 1 (Z.of_nat (S n)))).
    unfold exit_of in Hexit.
    rewrite Hmax, bool_decide_eq_true_2 in Hexit by reflexivity.
    rewrite Hmax, Hlen. repeat split; assumption.
  - intros Hmax. unfold range1 in Hrun.
    rewrite seqZ_nil in Hrun by lia. cbn [outcome] in Hrun.
    destruct Hrun as (s & Hexit & Hfs & Hw & _).
    exists s. repeat split; assumption.
Qed.

Lemma summary_after_max_rounds_witness :
  (exists s sm steps,
      run (sample_args 2) never_done ∅ = (SysExit 4, s)
      /\ fs s !! "out/log.json"
         = Some (LogJson (map StepEntry steps ++ [SummaryEntry sm]))
      /\ map step steps = [1; 2]
      /\ Z.of_nat (length steps) = 2
      /\ finish_signal sm = 0
      /\ total_steps sm = 1)
  /\ (exists s,
         run (sample_args 0) never_done ∅
         = (Uncaught (Exn NameError "name 'action_cnt' is not defined"), s)
         /\ fs s = ∅
         /\ written s = []).
Proof.
  split.
  - apply (proj1 (summary_after_max_rounds (sample_args 2) never_done ∅) 1%nat).
    + reflexivity.
    + intros i Hi. unfold clean.
      exists M3A, {| data := sample_data (VAction (sample_action "click"));
                     done := false |}.
      assert (Hcases : i = 1 \/ i = 2) by (cbn in Hi; lia).
      destruct Hcases as [-> | ->]; eexists; (split; [reflexivity|]);
        (split; [vm_compute; reflexivity | reflexivity]).
  - apply (proj2 (summary_after_max_rounds (sample_args 0) never_done ∅)).
    cbn. lia.
Defined.


(** ** The normalisation of the grounded action *)

(** X23.  A structured action whose tag is none of the eleven action
    types (['answer'], ['unknown'], ['wait'], no tag at all) is logged as
    [wait] with the detail "No action has been taken.". *)
Lemma normalize_fallback (ag : agent_kind) (d : gmap string value)
    (act : json_action) :
  d !! grounded_action_key ag = Some (VAction act) ->
  (forall tag, tag ∈ action_types -> action_type act <> Some tag) ->
  normalize ag d = Return wait_taken.
Proof.
  intros Hact Hnot. unfold normalize, lookup_data. rewrite Hact.
  cbn [mbind result_bind].
  repeat match goal with
         | |- context [decide (action_type act = Some ?tag)] =>
             destruct (decide (action_type act = Some tag)) as [Htag|_];
             [ exfalso; refine (Hnot tag _ Htag);
               unfold action_types; repeat constructor
             | ]
         end.
  reflexivity.
Qed.

(** X24.  Each of the eleven action types has its entry in the table:
    with the four coordinates of the gesture at hand the action is
    logged under its own type. *)
Lemma normalize_enumerated (ag : agent_kind) (d : gmap string value)
    (act : json_action) (tag : string) (x1 y1 x2 y2 : Z) :
  d !! grounded_action_key ag = Some (VAction act) ->
  action_type act = Some tag ->
  tag ∈ action_types ->
  d !! "actual_action_coordinates" = Some (VCoords [x1; y1; x2; y2]) ->
  exists al, normalize ag d = Return al /\ log_action_type al = tag.
Proof.
  intros Hact Htag Hin Hcoords. unfold normalize, lookup_data.
  rewrite Hact. cbn [mbind result_bind]. rewrite Hcoords, Htag.
  cbn [mbind result_bind].
  unfold action_types in Hin. rewrite !elem_of_cons in Hin.
  destruct Hin as [->|[->|[->|[->|[->|[->|[->|[->|[->|[->|[->|Hin]]]]]]]]]]];
    [ .. | inversion Hin ];
    repeat (case_decide; [try discriminate | try congruence]);
    try (eexists; split; reflexivity).
Qed.

(** C4, on the code.  When the grounded action is a string, whatever the
    agent and the rest of the data, the action is logged as [wait] with
    the empty detail, not with "No action has been taken.". *)
Theorem normalize_string_token (ag : agent_kind) (token : string)
    (d : gmap string value) :
  normalize ag (<[grounded_action_key ag := VStr token]> d)
  = Return {| log_action_type := "wait"; detail_type := "string";
              detail := VStr "" |}
  /\ normalize ag (<[grounded_action_key ag := VStr token]> d)
     <> Return wait_taken.
Proof.
  assert (H : normalize ag (<[grounded_action_key ag := VStr token]> d)
              = Return {| log_action_type := "wait"; detail_type := "string";
                          detail := VStr "" |}).
  { unfold normalize, lookup_data. rewrite lookup_insert_eq. reflexivity. }
  split; [exact H|]. rewrite H. discriminate.
Qed.


(** ** Every run *)


Lemma range1_nonpos (a : args) :
  max_rounds a <= 0 -> range1 (max_rounds a + 1) = [].
Proof. intros H. unfold range1. apply seqZ_nil. lia. Qed.



(** X13.  With [--max_rounds] zero or negative the loop has no round:
    the agent is not asked, [env.close()] runs, and the script dies at
    line 169 on the unbound name [action_cnt], with status 1 and without
    writing [log.json] or anything else. *)
Theorem run_without_rounds (a : args) (w : world) (fs0 : gmap string file) :
  max_rounds a <= 0 ->
  run a w fs0
  = (Uncaught (Exn NameError "name 'action_cnt' is not defined"),
     {| fs := fs0; written := []; is_done := false; benchmark_log := [];
        error_code := 0; prompt_total := 0; completion_total := 0;
        action_cnt := None; env_closed := 1 |}).
Proof.
  intros H. unfold run, main. rewrite (range1_nonpos a H). reflexivity.
Qed.


Lemma run_without_rounds_witness :
  run (sample_args 0) never_done ∅
  = (Uncaught (Exn NameError "name 'action_cnt' is not defined"),
     {| fs := ∅; written := []; is_done := false; benchmark_log := [];
        error_code := 0; prompt_total := 0; completion_total := 0;
        action_cnt := None; env_closed := 1 |}).
Proof.
  apply (run_without_rounds (sample_args 0) never_done ∅). cbn. lia.
Defined.



(** ** The files of a run *)

Lemma png_suffix_not_error_json (t : string) : t +:+ ".png" <> "error.json".
Proof.
  destruct t as [|c1 [|c2 [|c3 [|c4 [|c5 [|c6 [|c7 t]]]]]]]; cbn; intros H;
    try discriminate.
  injection H as _ _ _ _ _ _ _ H. destruct t as [|c8 [|c9 [|c10 t]]]; cbn in H;
    try discriminate.
  injection H as _ _ _ H. destruct t; discriminate.
Qed.

Lemma png_path_not_error (a : args) (z : Z) : png_path a z <> error_path a.
Proof.
  unfold png_path, error_path. intros H.
  apply (inj (String.app (output_dir a))) in H.
  cbn in H. injection H as H. exact (png_suffix_not_error_json _ H).
Qed.

(** What lines 90-153 do to the files: the screenshot is saved if it
    can be read, whatever follows; nothing else is written. *)
Lemma log_step_fs (a : args) (ag : agent_kind) (r : response) (cnt : Z)
    (s : state) :
  fs (snd (log_step a ag r cnt s))
  = match array ← lookup_data (data r) (screenshot_key ag);
          image_fromarray array with
    | Return pixels => <[png_path a (cnt - 1) := Png pixels]> (fs s)
    | Raise _ => fs s
    end.
Proof.
  unfold log_step, png_path.
  generalize (array ← lookup_data (data r) (screenshot_key ag);
              image_fromarray array)
             (normalize ag (data r))
             (token_counts ag fst (data r) (raw_response_key ag))
             (token_counts ag snd (data r) (raw_response_key ag))
             (collect (data r) (log_keys ag)).
  intros [px|x1] [al|x2] [p|x3] [c|x4] [en|x5]; reflexivity.
Qed.

Lemma log_step_error_file (a : args) (ag : agent_kind) (r : response)
    (cnt : Z) (s : state) :
  fs (snd (log_step a ag r cnt s)) !! error_path a = fs s !! error_path a.
Proof.
  rewrite log_step_fs.
  destruct (array ← lookup_data (data r) (screenshot_key ag);
            image_fromarray array); [|reflexivity].
  apply lookup_insert_ne, png_path_not_error.
Qed.

Lemma print_and_log_error_fs (a : args) (message : string) (s : state) :
  fs (snd (print_and_log_error a message s)) !! error_path a
  = Some (default (ErrorJson [message]) (fs s !! error_path a)).
Proof.
  unfold print_and_log_error, error_path, bind, get. cbv beta iota.
  destruct (fs s !! (output_dir a +:+ "/error.json")) eqn:Hex; cbn.
  - exact Hex.
  - apply lookup_insert_eq.
Qed.

(** The error file after the loop: the one that was there, or else the
    message of the exception the loop stopped on. *)
Lemma for_loop_error_file (a : args) (w : world) :
  forall (cnts : list Z) (s : state),
    fs (snd (for_loop a w cnts s)) !! error_path a
    = match fs s !! error_path a with
      | Some f => Some f
      | None => (fun m => ErrorJson [m]) <$> error_message a w cnts
      end.
Proof.
  induction cnts as [|cnt rest IH]; intros s.
  - cbn. destruct (fs s !! error_path a); reflexivity.
  - cbn [for_loop error_message]. unfold bind. rewrite round_unfold.
    destruct (agent_step_call a w cnt) as [[ag r]|x].
    + destruct (log_step_spec a ag r cnt (snd (set_action_cnt cnt s)))
        as (s1 & _ & _ & Hm).
      pose proof (log_step_error_file a ag r cnt (snd (set_action_cnt cnt s)))
        as Hfs.
      change (fs (snd (set_action_cnt cnt s))) with (fs s) in Hfs.
      destruct (step_record ag r cnt) as [e|x].
      * destruct Hm as (Hrun & _). rewrite Hrun in Hfs |- *. cbn [snd] in Hfs.
        destruct (done r).
        -- cbn [snd set_is_done modify fs ret]. rewrite Hfs.
           destruct (fs s !! error_path a); reflexivity.
        -- rewrite IH, Hfs. reflexivity.
      * destruct Hm as (Hrun & _). rewrite Hrun in Hfs |- *. cbn [snd] in Hfs.
        cbn [snd set_error_code modify fs ret].
        rewrite print_and_log_error_fs, Hfs.
        destruct (fs s !! error_path a); reflexivity.
    + cbn [snd set_error_code modify fs ret].
      rewrite print_and_log_error_fs.
      change (fs (snd (set_action_cnt cnt s))) with (fs s).
      destruct (fs s !! error_path a); reflexivity.
Qed.

(** The error file after the run. *)
Lemma run_error_file_eq (a : args) (w : world) (fs0 : gmap string file) :
  fs (snd (run a w fs0)) !! error_path a
  = match fs0 !! error_path a with
    | Some f => Some f
    | None => (fun m => ErrorJson [m])
                <$> error_message a w (range1 (max_rounds a + 1))
    end.
Proof.
  pose proof (for_loop_error_file a w (range1 (max_rounds a + 1)) (initial fs0))
    as Hfile.
  destruct (for_loop_spec a w (range1 (max_rounds a + 1)) (initial fs0)
              eq_refl eq_refl) as (s1 & Hrun & _).
  rewrite Hrun in Hfile. cbn [snd initial fs] in Hfile.
  unfold run, main. unfold bind at 1. rewrite Hrun.
  unfold bind at 1, env_close at 1, modify at 1.
  unfold bind at 1, get at 1. cbn [action_cnt].
  destruct (action_cnt s1) as [cnt|].
  - unfold bind at 1, log_append at 1, modify at 1.
    unfold bind at 1, get at 1. unfold bind at 1, write_file at 1, modify at 1.
    unfold ret. cbn [snd fs].
    rewrite lookup_insert_ne by (apply not_eq_sym, error_path_not_log).
    exact Hfile.
  - unfold ret. cbn [snd fs]. exact Hfile.
Qed.

(** The loop hands a message to [print_and_log_error] exactly when it
    stops on an exception. *)
Lemma error_message_outcome (a : args) (w : world) (cnts : list Z) :
  match outcome a w cnts with
  | Some (_, how) =>
      if regular how then error_message a w cnts = None
      else is_Some (error_message a w cnts)
  | None => error_message a w cnts = None
  end.
Proof.
  induction cnts as [|cnt rest IH]; [reflexivity|].
  cbn [outcome error_message].
  destruct (agent_step_call a w cnt) as [[ag r]|x]; [|cbn; eauto].
  destruct (step_record ag r cnt) as [e|x]; [|cbn; eauto].
  destruct (done r); [reflexivity|].
  destruct (outcome a w rest) as [[c how]|]; [exact IH|exact IH].
Qed.

(** X15.  The error file of a whole run.  An [error.json] that is in the
    output directory before the run is still there, unchanged, after it.
    If there is none, the run leaves one exactly when its loop stopped
    on an exception ([error_code] 1 or 2), and it then holds a single
    message. *)
Theorem run_error_file (a : args) (w : world) (fs0 : gmap string file) :
  match fs0 !! error_path a with
  | Some f => fs (snd (run a w fs0)) !! error_path a = Some f
  | None =>
      (error_code (snd (run a w fs0)) = 0 ->
       fs (snd (run a w fs0)) !! error_path a = None)
      /\ (error_code (snd (run a w fs0)) <> 0 ->
          exists message,
            fs (snd (run a w fs0)) !! error_path a = Some (ErrorJson [message]))
  end.
Proof.
  rewrite run_error_file_eq.
  destruct (fs0 !! error_path a) as [f|]; [reflexivity|].
  pose proof (error_message_outcome a w (range1 (max_rounds a + 1))) as Hmsg.
  pose proof (run_spec a w fs0) as H.
  destruct (outcome a w (range1 (max_rounds a + 1))) as [[c how]|] eqn:Hout.
  - destruct H as (s & sm & paths & -> & _ & _ & _ & _ & _ & He & _).
    cbn [snd]. rewrite He.
    destruct how; cbn [regular code_of] in *.
    + rewrite Hmsg. split; [reflexivity | intros Hne; lia].
    + rewrite Hmsg. split; [reflexivity | intros Hne; lia].
    + destruct Hmsg as [m ->]. split; [intros Hne; lia | intros _; eauto].
    + destruct Hmsg as [m ->]. split; [intros Hne; lia | intros _; eauto].
  - rewrite Hmsg. split; [reflexivity|].
    apply outcome_None in Hout. unfold run, main. rewrite Hout. cbn.
    intros Hne. lia.
Qed.


(** ** Runs that stop on an exception *)

Lemma error_message_after_clean (a : args) (w : world) (rest : list Z) :
  forall (n : nat) (k : Z),
    (forall i, k <= i < k + Z.of_nat n -> clean a w i) ->
    error_message a w (seqZ k (Z.of_nat n) ++ rest) = error_message a w rest.
Proof.
  induction n as [|n IH]; intros k Hclean.
  - rewrite seqZ_nil by lia. reflexivity.
  - rewrite seqZ_succ. cbn [app error_message].
    destruct (Hclean k) as (ag & r & e & Hcall & Hrec & Hdone); [lia|].
    rewrite Hcall, Hrec, Hdone. apply IH. intros i Hi. apply Hclean. lia.
Qed.

Lemma range1_split (a : args) (n : nat) :
  Z.of_nat (S n) <= max_rounds a ->
  range1 (max_rounds a + 1)
  = seqZ 1 (Z.of_nat n)
    ++ Z.of_nat (S n)
       :: seqZ (Z.of_nat (S n) + 1) (max_rounds a - Z.of_nat (S n)).
Proof.
  intros H. unfold range1.
  replace (max_rounds a + 1 - 1)
    with (Z.of_nat n + (max_rounds a - Z.of_nat n)) by lia.
  rewrite seqZ_app by lia. f_equal.
  rewrite seqZ_cons by lia. f_equal; [lia|]. f_equal; lia.
Qed.

(** [n] clean rounds, then a round that stops the loop on an exception
    with the message [m]: the run exits as lines 177-188 say for that
    round, with [n] step entries in [log.json], [total_steps = n], and
    [m] alone in a new [error.json]. *)
Lemma run_stop_after_clean (a : args) (w : world) (fs0 : gmap string file)
    (n : nat) (how : stop) (m : string) :
  Z.of_nat (S n) <= max_rounds a ->
  (forall i, 1 <= i < Z.of_nat (S n) -> clean a w i) ->
  (forall rest,
      outcome a w (Z.of_nat (S n) :: rest) = Some (Z.of_nat (S n), how)
      /\ records a w (Z.of_nat (S n) :: rest) = []
      /\ error_message a w (Z.of_nat (S n) :: rest) = Some m) ->
  regular how = false ->
  fs0 !! error_path a = None ->
  exists (entries : list step_entry) (sm : summary_entry),
    fst (run a w fs0) = SysExit (exit_of a (Z.of_nat (S n)) how)
    /\ fs (snd (run a w fs0)) !! log_path a
       = Some (LogJson (map StepEntry entries ++ [SummaryEntry sm]))
    /\ map step entries = seqZ 1 (Z.of_nat n)
    /\ total_steps sm = Z.of_nat n
    /\ finish_signal sm = 0
    /\ fs (snd (run a w fs0)) !! error_path a = Some (ErrorJson [m]).
Proof.
  intros Hmax Hclean Hstop Hreg Hfile.
  pose proof (run_error_file_eq a w fs0) as Herr.
  pose proof (run_spec a w fs0) as H.
  rewrite Hfile in Herr.
  rewrite (range1_split a n Hmax) in H, Herr.
  set (rest := seqZ (Z.of_nat (S n) + 1) (max_rounds a - Z.of_nat (S n))) in *.
  destruct (Hstop rest) as (Hout & Hrec & Hmsg).
  destruct (outcome_after_clean a w (Z.of_nat (S n) :: rest) n 1)
    as (Hout' & es & Hlen & Hsteps & Hrecs).
  { intros i Hi. apply Hclean. lia. }
  rewrite (error_message_after_clean a w (Z.of_nat (S n) :: rest) n 1), Hmsg
    in Herr by (intros i Hi; apply Hclean; lia).
  rewrite Hout in Hout'. rewrite Hout', Hrecs, Hrec, app_nil_r in H.
  destruct H as (s & sm & paths & Hrun & Hlog & _ & _ & _ & _ & _ & Hsm & Hfin & _).
  rewrite Hrun in Herr |- *. cbn [fst snd] in *.
  exists es, sm. split; [reflexivity|]. split; [exact Hlog|].
  split; [exact Hsteps|]. split; [lia|]. split; [|exact Herr].
  rewrite Hfin. destruct how; (discriminate || reflexivity).
Qed.

(** X16.  [agent.step] raises in round [n + 1], after [n] rounds that
    were logged without completion: the exit status is 2; [log.json]
    holds the [n] step entries, numbered 1 to [n], and a summary with
    [total_steps = n] and [finish_signal = 0]; and [error.json], if
    there was none, holds the one message
    "Error taking step: " followed by the text of the exception. *)
Theorem step_error_after_clean_rounds (a : args) (w : world)
    (fs0 : gmap string file) (n : nat) (x : exn) :
  Z.of_nat (S n) <= max_rounds a ->
  (forall i, 1 <= i < Z.of_nat (S n) -> clean a w i) ->
  agent_step_call a w (Z.of_nat (S n)) = Raise x ->
  fs0 !! error_path a = None ->
  exists (entries : list step_entry) (sm : summary_entry),
    fst (run a w fs0) = SysExit 2
    /\ fs (snd (run a w fs0)) !! log_path a
       = Some (LogJson (map StepEntry entries ++ [SummaryEntry sm]))
    /\ map step entries = seqZ 1 (Z.of_nat n)
    /\ total_steps sm = Z.of_nat n
    /\ finish_signal sm = 0
    /\ fs (snd (run a w fs0)) !! error_path a
       = Some (ErrorJson ["Error taking step: " +:+ exn_msg x]).
Proof.
  intros Hmax Hclean Hcall Hfile.
  apply (run_stop_after_clean a w fs0 n StepError
           ("Error taking step: " +:+ exn_msg x) Hmax Hclean);
    [|reflexivity|exact Hfile].
  intros rest. cbn [outcome records error_message]. rewrite Hcall.
  repeat split.
Qed.

(** X17.  The log handling raises in round [n + 1], which is not the
    last one allowed, after [n] rounds that were logged without
    completion: the exit status is 1; [log.json] holds the [n] step
    entries and a summary with [total_steps = n] and
    [finish_signal = 0]; and [error.json], if there was none, holds the
    one message "Error handling log: " followed by the text of the
    exception. *)
Theorem log_error_before_last_round (a : args) (w : world)
    (fs0 : gmap string file) (n : nat) (ag : agent_kind) (r : response)
    (x : exn) :
  Z.of_nat (S n) < max_rounds a ->
  (forall i, 1 <= i < Z.of_nat (S n) -> clean a w i) ->
  agent_step_call a w (Z.of_nat (S n)) = Return (ag, r) ->
  step_record ag r (Z.of_nat (S n)) = Raise x ->
  fs0 !! error_path a = None ->
  exists (entries : list step_entry) (sm : summary_entry),
    fst (run a w fs0) = SysExit 1
    /\ fs (snd (run a w fs0)) !! log_path a
       = Some (LogJson (map StepEntry entries ++ [SummaryEntry sm]))
    /\ map step entries = seqZ 1 (Z.of_nat n)
    /\ total_steps sm = Z.of_nat n
    /\ finish_signal sm = 0
    /\ fs (snd (run a w fs0)) !! error_path a
       = Some (ErrorJson ["Error handling log: " +:+ exn_msg x]).
Proof.
  intros Hmax Hclean Hcall Hrec Hfile.
  assert (Hexit : exit_of a (Z.of_nat (S n)) LogError = 1).
  { unfold exit_of. rewrite bool_decide_eq_false_2 by lia. reflexivity. }
  pose proof (run_stop_after_clean a w fs0 n LogError
                ("Error handling log: " +:+ exn_msg x)) as H.
  rewrite Hexit in H. apply H; [lia|exact Hclean| |reflexivity|exact Hfile].
  intros rest. cbn [outcome records error_message]. rewrite Hcall, Hrec.
  repeat split.
Qed.

(** X18.  Without [--agent] no branch of lines 54-71 binds [agent]: the
    first [agent.step] raises [NameError], which the loop catches as a
    step error.  With at least one round allowed the run exits with
    status 2, [log.json] holds only the summary, with [total_steps = 0],
    and [error.json], if there was none, names the unbound [agent]. *)
Theorem run_without_agent (a : args) (w : world) (fs0 : gmap string file) :
  agent a = None ->
  1 <= max_rounds a ->
  fs0 !! error_path a = None ->
  exists sm : summary_entry,
    fst (run a w fs0) = SysExit 2
    /\ fs (snd (run a w fs0)) !! log_path a = Some (LogJson [SummaryEntry sm])
    /\ total_steps sm = 0
    /\ finish_signal sm = 0
    /\ fs (snd (run a w fs0)) !! error_path a
       = Some (ErrorJson ["Error taking step: name 'agent' is not defined"]).
Proof.
  intros Hagent Hmax Hfile.
  destruct (run_stop_after_clean a w fs0 0 StepError
              "Error taking step: name 'agent' is not defined")
    as (entries & sm & Hexit & Hlog & Hsteps & Htotal & Hfin & Herr);
    [exact Hmax|intros i Hi; lia| |reflexivity|exact Hfile|].
  { intros rest. cbn [outcome records error_message].
    unfold agent_step_call. rewrite Hagent. repeat split. }
  destruct entries; [|discriminate].
  exists sm. repeat split; assumption.
Qed.

Lemma step_error_after_clean_rounds_witness :
  exists (entries : list step_entry) (sm : summary_entry),
    fst (run (sample_args 5) (step_raises_at 3) ∅) = SysExit 2
    /\ fs (snd (run (sample_args 5) (step_raises_at 3) ∅)) !! log_path (sample_args 5)
       = Some (LogJson (map StepEntry entries ++ [SummaryEntry sm]))
    /\ map step entries = seqZ 1 (Z.of_nat 2)
    /\ total_steps sm = Z.of_nat 2
    /\ finish_signal sm = 0
    /\ fs (snd (run (sample_args 5) (step_raises_at 3) ∅)) !! error_path (sample_args 5)
       = Some (ErrorJson ["Error taking step: " +:+ "device offline"]).
Proof.
  apply (step_error_after_clean_rounds (sample_args 5) (step_raises_at 3) ∅ 2
           (Exn OtherException "device offline")).
  - cbn. lia.
  - intros i Hi.
    assert (Hcases : i = 1 \/ i = 2) by (cbn in Hi; lia).
    exists M3A,
      {| data := sample_data (VAction (sample_action "click")); done := false |}.
    destruct Hcases as [-> | ->]; eexists; (split; [reflexivity|]);
      (split; [vm_compute; reflexivity | reflexivity]).
  - reflexivity.
  - reflexivity.
Defined.

Lemma log_error_before_last_round_witness :
  exists (entries : list step_entry) (sm : summary_entry),
    fst (run (sample_args 5) (no_screenshot_at 2) ∅) = SysExit 1
    /\ fs (snd (run (sample_args 5) (no_screenshot_at 2) ∅)) !! log_path (sample_args 5)
       = Some (LogJson (map StepEntry entries ++ [SummaryEntry sm]))
    /\ map step entries = seqZ 1 (Z.of_nat 1)
    /\ total_steps sm = Z.of_nat 1
    /\ finish_signal sm = 0
    /\ fs (snd (run (sample_args 5) (no_screenshot_at 2) ∅)) !! error_path (sample_args 5)
       = Some (ErrorJson ["Error handling log: " +:+ "'benchmark_screenshot'"]).
Proof.
  apply (log_error_before_last_round (sample_args 5) (no_screenshot_at 2) ∅ 1
           M3A {| data := ∅; done := false |}
           (Exn KeyError "'benchmark_screenshot'")).
  - cbn. lia.
  - intros i Hi.
    assert (Hcases : i = 1) by (cbn in Hi; lia). subst i.
    exists M3A,
      {| data := sample_data (VAction (sample_action "click")); done := false |}.
    eexists. split; [reflexivity|].
    split; [vm_compute; reflexivity | reflexivity].
  - reflexivity.
  - reflexivity.
  - reflexivity.
Defined.

Lemma run_without_agent_witness :
  exists sm : summary_entry,
    fst (run (no_agent_args 3) never_done ∅) = SysExit 2
    /\ fs (snd (run (no_agent_args 3) never_done ∅)) !! log_path (no_agent_args 3)
       = Some (LogJson [SummaryEntry sm])
    /\ total_steps sm = 0
    /\ finish_signal sm = 0
    /\ fs (snd (run (no_agent_args 3) never_done ∅)) !! error_path (no_agent_args 3)
       = Some (ErrorJson ["Error taking step: name 'agent' is not defined"]).
Proof.
  apply (run_without_agent (no_agent_args 3) never_done ∅).
  - reflexivity.
  - cbn. lia.
  - reflexivity.
Defined.


(** ** One step's screenshot, tokens and entry *)


(** X20.  The step's tokens are added to the totals before the log keys
    are read: when the screenshot, the action and the token counts are
    fine but a log key is missing, the log handling raises with the
    totals already increased by this step's tokens, although the step
    gets no entry. *)
Theorem tokens_counted_before_log_keys (a : args) (ag : agent_kind)
    (r : response) (cnt : Z) (s : state) (pixels : list Z) (al : action_log)
    (p c : list Z) (x : exn) :
  data r !! screenshot_key ag = Some (VArray pixels) ->
  normalize ag (data r) = Return al ->
  token_counts ag fst (data r) (raw_response_key ag) = Return p ->
  token_counts ag snd (data r) (raw_response_key ag) = Return c ->
  collect (data r) (log_keys ag) = Raise x ->
  fst (log_step a ag r cnt s) = Raise x
  /\ benchmark_log (snd (log_step a ag r cnt s)) = benchmark_log s
  /\ prompt_total (snd (log_step a ag r cnt s)) = prompt_total s + sum p
  /\ completion_total (snd (log_step a ag r cnt s))
     = completion_total s + sum c.
Proof.
  intros Hshot Hnorm Hp Hc Hcol. unfold log_step, lookup_data.
  rewrite Hshot, Hnorm, Hp, Hc, Hcol. cbn. repeat split.
Qed.

Lemma collect_spec (d : gmap string value) :
  forall (keys : list string) (entries : list (string * value)),
    collect d keys = Return entries ->
    map fst entries = keys
    /\ Forall (fun kv => d !! fst kv = Some (snd kv)) entries.
Proof.
  induction keys as [|key keys IH]; intros entries; cbn.
  - intros [= <-]. split; [reflexivity | constructor].
  - unfold lookup_data. destruct (d !! key) as [v|] eqn:Hkey; [|discriminate].
    cbn. destruct (collect d keys) as [rest|x]; [|discriminate].
    cbn. intros [= <-]. destruct (IH rest eq_refl) as [Hk Hv].
    split; [cbn; f_equal; exact Hk|]. constructor; [exact Hkey | exact Hv].
Qed.

Lemma token_counts_sum (ag : agent_kind) (sel : Z * Z -> Z)
    (d : gmap string value) :
  forall (keys : list string) (l : list Z),
    token_counts ag sel d keys = Return l ->
    sum l = sum (map (usage_tokens sel d) keys).
Proof.
  induction keys as [|key keys IH]; intros l; cbn [token_counts map].
  - intros [= <-]. reflexivity.
  - unfold lookup_data, usage_tokens at 1.
    destruct (d !! key) as [v|]; [|discriminate]. cbn [mbind result_bind].
    destruct v as [|t|px|cs|act|shape [u|]];
      try (destruct ag; discriminate);
      try (destruct ag, shape; discriminate).
    + intros H. unfold sum in *. cbn [foldr]. rewrite <- (IH l H). lia.
    + destruct (usage_of ag (VRaw shape (Some u))) as [u'|x] eqn:Hu;
        [|discriminate].
      assert (u' = u) as -> by (destruct ag, shape; cbn in Hu; congruence).
      cbn [mbind result_bind].
      destruct (token_counts ag sel d keys) as [rest|x]; [|discriminate].
      cbn [mbind result_bind]. intros [= <-].
      unfold sum in *. cbn [foldr]. rewrite (IH rest eq_refl). reflexivity.
Qed.

(** X21.  What a step entry holds: the number of its round; the action
    as [normalize] gives it; under each log key the value the step's
    data have there; and as token counts the sums, over the raw-response
    keys, of the usage of the responses that are not [None]. *)
Theorem step_entry_contents (ag : agent_kind) (r : response) (cnt : Z)
    (e : step_entry) :
  step_record ag r cnt = Return e ->
  step e = cnt
  /\ normalize ag (data r) = Return (action e)
  /\ map fst (logged e) = log_keys ag
  /\ Forall (fun kv => data r !! fst kv = Some (snd kv)) (logged e)
  /\ prompt_tokens e
     = sum (map (usage_tokens fst (data r)) (raw_response_key ag))
  /\ completion_tokens e
     = sum (map (usage_tokens snd (data r)) (raw_response_key ag)).
Proof.
  unfold step_record.
  pose proof (token_counts_sum ag fst (data r) (raw_response_key ag)) as Hp.
  pose proof (token_counts_sum ag snd (data r) (raw_response_key ag)) as Hc.
  pose proof (collect_spec (data r) (log_keys ag)) as Hl.
  destruct (array ← lookup_data (data r) (screenshot_key ag);
            image_fromarray array) as [px|x1]; [|discriminate].
  destruct (normalize ag (data r)) as [al|x2]; [|discriminate].
  destruct (token_counts ag fst (data r) (raw_response_key ag)) as [p|x3];
    [|discriminate].
  destruct (token_counts ag snd (data r) (raw_response_key ag)) as [c|x4];
    [|discriminate].
  destruct (collect (data r) (log_keys ag)) as [en|x5]; [|discriminate].
  cbn. intros [= <-]. cbn.
  destruct (Hl en eq_refl) as [Hk Hv].
  repeat split; auto.
Qed.


Lemma tokens_counted_before_log_keys_witness :
  fst (log_step (sample_args 3) M3A
         {| data := delete "summary"
                      (sample_data (VAction (sample_action "click")));
            done := false |} 1 (initial ∅))
  = Raise (Exn KeyError "'summary'")
  /\ benchmark_log
       (snd (log_step (sample_args 3) M3A
               {| data := delete "summary"
                            (sample_data (VAction (sample_action "click")));
                  done := false |} 1 (initial ∅)))
     = benchmark_log (initial ∅)
  /\ prompt_total
       (snd (log_step (sample_args 3) M3A
               {| data := delete "summary"
                            (sample_data (VAction (sample_action "click")));
                  done := false |} 1 (initial ∅)))
     = prompt_total (initial ∅) + sum [100]
  /\ completion_total
       (snd (log_step (sample_args 3) M3A
               {| data := delete "summary"
                            (sample_data (VAction (sample_action "click")));
                  done := false |} 1 (initial ∅)))
     = completion_total (initial ∅) + sum [7].
Proof.
  apply (tokens_counted_before_log_keys (sample_args 3) M3A
           {| data := delete "summary"
                        (sample_data (VAction (sample_action "click")));
              done := false |} 1 (initial ∅) [0; 0; 0]
           {| log_action_type := "click"; detail_type := "coordinates";
              detail := VCoords [10; 20; 30; 40] |}
           [100] [7] (Exn KeyError "'summary'"));
    vm_compute; reflexivity.
Defined.

Lemma step_entry_contents_witness :
  step {| step := 2;
          logged := [("action_output", VStr "Action: ...");
                     ("summary", VStr "Summary: ...")];
          prompt_tokens := 100; completion_tokens := 7;
          action := {| log_action_type := "click";
                       detail_type := "coordinates";
                       detail := VCoords [10; 20; 30; 40] |} |} = 2
  /\ normalize M3A (sample_data (VAction (sample_action "click")))
     = Return {| log_action_type := "click"; detail_type := "coordinates";
                 detail := VCoords [10; 20; 30; 40] |}
  /\ map fst [("action_output", VStr "Action: ...");
              ("summary", VStr "Summary: ...")] = log_keys M3A
  /\ Forall (fun kv => sample_data (VAction (sample_action "click")) !! fst kv
                       = Some (snd kv))
       [("action_output", VStr "Action: ..."); ("summary", VStr "Summary: ...")]
  /\ 100 = sum (map (usage_tokens fst
                       (sample_data (VAction (sample_action "click"))))
                  (raw_response_key M3A))
  /\ 7 = sum (map (usage_tokens snd
                     (sample_data (VAction (sample_action "click"))))
                (raw_response_key M3A)).
Proof.
  apply (step_entry_contents M3A
           {| data := sample_data (VAction (sample_action "click"));
              done := false |} 2
           {| step := 2;
              logged := [("action_output", VStr "Action: ...");
                         ("summary", VStr "Summary: ...")];
              prompt_tokens := 100; completion_tokens := 7;
              action := {| log_action_type := "click";
                           detail_type := "coordinates";
                           detail := VCoords [10; 20; 30; 40] |} |}).
  vm_compute. reflexivity.
Defined.


(** ** The action table *)

Local Ltac decided := apply (bool_decide_unpack _); vm_compute; exact I.

(** X22.  Whatever the step's data, an action that is logged carries
    one of the eleven action types or [wait]; its detail is of type
    [coordinates] exactly for [click], [double_tap] and [long_press],
    and of type [string] for all others. *)
Theorem normalize_classifies (ag : agent_kind) (d : gmap string value)
    (al : action_log) :
  normalize ag d = Return al ->
  log_action_type al ∈ "wait" :: action_types
  /\ (detail_type al = "coordinates" <-> log_action_type al ∈ coordinate_types)
  /\ (detail_type al = "string" <-> log_action_type al ∉ coordinate_types).
Proof.
  unfold normalize. cbv zeta.
  destruct (lookup_data d (grounded_action_key ag)) as [v|x]; [|discriminate].
  generalize (lookup_data d "actual_action_coordinates"). intros coords.
  cbn [mbind result_bind].
  destruct v as [|t|px|cs|act|shape u]; try discriminate.
  - intros [= <-]. cbn. split; [decided | split; decided].
  - repeat case_decide;
      try (destruct coords as [c|x]; cbn [mbind result_bind];
           [|discriminate]);
      try (destruct (unpack4 c) as [[[[x1 y1] x2] y2]|x];
           cbn [mbind result_bind]; [|discriminate]);
      intros [= <-]; cbn; (split; [decided | split; decided]).
Qed.

(** X25.  The five gesture types need the coordinates of the action:
    when the data have no [actual_action_coordinates], logging a
    [click], [double_tap], [long_press], [scroll] or [swipe] raises
    [KeyError]. *)
Theorem gesture_needs_coordinates (ag : agent_kind) (d : gmap string value)
    (act : json_action) (tag : string) :
  d !! grounded_action_key ag = Some (VAction act) ->
  action_type act = Some tag ->
  tag ∈ gesture_types ->
  d !! "actual_action_coordinates" = None ->
  normalize ag d = Raise (Exn KeyError "'actual_action_coordinates'").
Proof.
  intros Hact Htag Hin Hcoords. unfold normalize, lookup_data.
  rewrite Hact. cbn [mbind result_bind]. rewrite Hcoords, Htag.
  cbn [mbind result_bind].
  unfold gesture_types in Hin. rewrite !elem_of_cons in Hin.
  destruct Hin as [->|[->|[->|[->|[->|Hin]]]]]; [ .. | inversion Hin ];
    repeat (case_decide; [try discriminate | try congruence]);
    reflexivity.
Qed.

(** X26.  No other action reads the coordinates: when the grounded
    action is not a structured action with one of the five gesture
    types, it is logged in the same way with and without
    [actual_action_coordinates] in the data. *)
Theorem other_actions_ignore_coordinates (ag : agent_kind)
    (d : gmap string value) :
  (forall act tag,
      d !! grounded_action_key ag = Some (VAction act) ->
      tag ∈ gesture_types -> action_type act <> Some tag) ->
  normalize ag (delete "actual_action_coordinates" d) = normalize ag d.
Proof.
  intros Hnot. unfold normalize, lookup_data. cbv zeta.
  rewrite (lookup_delete_ne d "actual_action_coordinates"
             (grounded_action_key ag)) by (destruct ag; cbn; discriminate).
  destruct (d !! grounded_action_key ag) as [v|]; [|reflexivity].
  cbn [mbind result_bind].
  destruct v as [|t|px|cs|act|shape u]; try reflexivity.
  repeat match goal with
         | |- context [decide (action_type act = Some ?tag)] =>
             destruct (decide (action_type act = Some tag)) as [Htag|_];
             [ first [ exfalso; refine (Hnot act tag eq_refl _ Htag); decided
                     | reflexivity ]
             | ]
         end.
  reflexivity.
Qed.

Lemma normalize_classifies_witness :
  log_action_type {| log_action_type := "scroll"; detail_type := "string";
                     detail := VStr "The coordinates (10,20) have been swiped to the None." |}
    ∈ "wait" :: action_types
  /\ (detail_type {| log_action_type := "scroll"; detail_type := "string";
                     detail := VStr "The coordinates (10,20) have been swiped to the None." |}
      = "coordinates"
      <-> log_action_type {| log_action_type := "scroll"; detail_type := "string";
                             detail := VStr "The coordinates (10,20) have been swiped to the None." |}
          ∈ coordinate_types)
  /\ (detail_type {| log_action_type := "scroll"; detail_type := "string";
                     detail := VStr "The coordinates (10,20) have been swiped to the None." |}
      = "string"
      <-> log_action_type {| log_action_type := "scroll"; detail_type := "string";
                             detail := VStr "The coordinates (10,20) have been swiped to the None." |}
          ∉ coordinate_types).
Proof.
  apply (normalize_classifies M3A (sample_data (VAction (sample_action "scroll")))).
  vm_compute. reflexivity.
Defined.

Lemma normalize_fallback_witness :
  normalize M3A (sample_data (VAction (sample_action "answer")))
  = Return wait_taken.
Proof.
  apply (normalize_fallback M3A (sample_data (VAction (sample_action "answer")))
           (sample_action "answer")).
  - vm_compute. reflexivity.
  - intros tag Hin Htag. cbn in Htag. injection Htag as <-.
    revert Hin. decided.
Defined.

Lemma normalize_enumerated_witness :
  exists al,
    normalize M3A (sample_data (VAction (sample_action "swipe"))) = Return al
    /\ log_action_type al = "swipe".
Proof.
  apply (normalize_enumerated M3A (sample_data (VAction (sample_action "swipe")))
           (sample_action "swipe") "swipe" 10 20 30 40).
  - vm_compute. reflexivity.
  - reflexivity.
  - decided.
  - vm_compute. reflexivity.
Defined.

Lemma gesture_needs_coordinates_witness :
  normalize M3A (delete "actual_action_coordinates"
                   (sample_data (VAction (sample_action "long_press"))))
  = Raise (Exn KeyError "'actual_action_coordinates'").
Proof.
  apply (gesture_needs_coordinates M3A
           (delete "actual_action_coordinates"
              (sample_data (VAction (sample_action "long_press"))))
           (sample_action "long_press") "long_press").
  - vm_compute. reflexivity.
  - reflexivity.
  - decided.
  - vm_compute. reflexivity.
Defined.

Lemma other_actions_ignore_coordinates_witness :
  normalize M3A (delete "actual_action_coordinates"
                   (sample_data (VAction (sample_action "open_app"))))
  = normalize M3A (sample_data (VAction (sample_action "open_app"))).
Proof.
  apply (other_actions_ignore_coordinates M3A
           (sample_data (VAction (sample_action "open_app")))).
  intros act tag Hact Hin Htag.
  vm_compute in Hact. injection Hact as <-.
  cbn in Htag. injection Htag as <-. revert Hin. decided.
Defined.

End benchmark_run_spec.
